(** * Admission validation and cluster synchronisation of the vSphere provider extension

    A shallow embedding of
      - [pkg/apis/vsphere/helper] (decoding of the provider configuration),
      - [pkg/apis/vsphere/validation] (the infrastructure validators),
      - the shoot validator (context builder and the create and update flows),
      - [gardener/pkg/extensions/cluster.go] (the Cluster resource upsert),
    followed by the properties of these functions.

    Conventions.  A Go [[]byte] is an [option string]: [None] is the nil slice,
    [Some s] a slice holding the bytes of [s] (possibly none).  A Go pointer is
    an [option] wherever the code or a property distinguishes nil, and
    dereferencing [None] is the outcome [Panic]; a pointer parameter that is
    used without any nil test is passed as the value.  A Go [error] result is
    an [outcome]: [Ok] for a nil error.  Calls that leave the
    process or the package (the decoder, the API client, the validation
    package) are recorded in a trace, in call order. *)

From Stdlib Require Import String List.
From stdpp Require Import base option list gmap strings.

Local Open Scope string_scope.
Local Open Scope list_scope.

(** ** k8s.io/apimachinery: field paths and field errors *)

Module field.

(** A [*field.Path] made of named elements only, root first. *)
Definition Path := list string.

Definition NewPath (name : string) (moreNames : list string) : Path :=
  name :: moreNames.

Definition Child (p : Path) (name : string) : Path := p ++ [name].

Fixpoint PathString (p : Path) : string :=
  match p with
  | [] => ""
  | [x] => x
  | x :: rest => x +:+ "." +:+ PathString rest
  end.

Inductive ErrorType :=
| ErrorTypeNotFound
| ErrorTypeRequired
| ErrorTypeDuplicate
| ErrorTypeInvalid
| ErrorTypeNotSupported
| ErrorTypeForbidden
| ErrorTypeTooLong
| ErrorTypeTooMany
| ErrorTypeInternal.

Record Error := {
  Type_ : ErrorType;
  Field : string;
  BadValue : string;
  Detail : string
}.

Definition ErrorList := list Error.

Definition Required (p : Path) (detail : string) : Error :=
  {| Type_ := ErrorTypeRequired; Field := PathString p; BadValue := ""; Detail := detail |}.

Definition Invalid (p : Path) (value : string) (detail : string) : Error :=
  {| Type_ := ErrorTypeInvalid; Field := PathString p; BadValue := value; Detail := detail |}.

End field.

(** ** Go values shared by the packages *)

(** A byte slice; [string(raw)] is [bytes_string raw]. *)
Definition bytes := option string.

Definition bytes_string (raw : bytes) : string := default "" raw.

(** The [error] values this code builds or passes on.  Library constructors
    are kept uninterpreted: [fmt_Errorf] holds its format and arguments,
    [Aggregate] the list [ErrorList.ToAggregate] was called on. *)
Inductive error :=
| field_Error (e : field.Error)
| Aggregate (errs : field.ErrorList)
| fmt_Errorf (format : string) (args : list fmtArg)
| errors_Wrap (cause : error) (message : string)
| external (origin : string) (message : string)
with fmtArg :=
| argString (s : string)
| argError (e : error).

Inductive outcome (A : Type) :=
| Ok (a : A)
| Err (e : error)
| Panic (msg : string).
Arguments Ok {A} a.
Arguments Err {A} e.
Arguments Panic {A} msg.

Definition nilDereference : string :=
  "runtime error: invalid memory address or nil pointer dereference".

(** The objects of package [vsphere] a decoder can be asked for. *)
Module vsphere.

Inductive Target :=
| InfrastructureConfig
| ControlPlaneConfig
| CloudProfileConfig
| InfrastructureStatus.

End vsphere.

(** The checks of package [validation] the orchestrator and the helper call. *)
Inductive Check :=
| CheckInfrastructureConfigUpdate
| CheckControlPlaneConfigUpdate
| CheckWorkersUpdate
| CheckNetworking
| CheckInfrastructureConfig
| CheckControlPlaneConfig
| CheckWorkers
| CheckInfrastructureConfigAgainstCloudProfile
| CheckControlPlaneConfigAgainstCloudProfile
| CheckCloudProfileConfig.

(** [Decode into raw]: a decode of [raw] into an object of type [into], by
    [decoder.Decode] or through [util.Decode]. *)
Inductive Event :=
| Decode (into : vsphere.Target) (raw : bytes)
| Get (cloudProfileName : string)
| Validate (check : Check).

(** ** A trace-and-error monad for the call chain of one request *)

Definition M (A : Type) : Type := list Event * outcome A.

Definition trace {A} (m : M A) : list Event := fst m.
Definition result {A} (m : M A) : outcome A := snd m.

#[export] Instance M_ret : MRet M := λ A a, ([], Ok a).

#[export] Instance M_bind : MBind M := λ A B f m,
  match m with
  | (t, Ok a) => let '(t', r) := f a in (t ++ t', r)
  | (t, Err e) => (t, Err e)
  | (t, Panic msg) => (t, Panic msg)
  end.

Definition fail {A} (e : error) : M A := ([], Err e).
Definition panic {A} (msg : string) : M A := ([], Panic msg).
Definition emit (ev : Event) : M unit := ([ev], Ok tt).

(** [if err != nil { return nil, f(err) }] around a call. *)
Definition onError {A} (f : error → error) (m : M A) : M A :=
  match m with
  | (t, Err e) => (t, Err (f e))
  | other => other
  end.

(** Dereference of a pointer. *)
Definition deref {A} (p : option A) : M A :=
  match p with
  | Some a => mret a
  | None => panic nilDereference
  end.

(** ** The API objects, as far as this code reads them *)

(** What the sources under verification leave opaque: the configuration
    objects of package [vsphere] with their zero values ([&vsphere.X{}]), and
    the Gardener types that are only handed on. *)
Class Schema := {
  obj : vsphere.Target → Type;
  zero : ∀ k, obj k;
  core_Worker : Type;
  core_Networking : Type;
  Nodes : core_Networking → option string;
  core_SeedSpec : Type;
  metav1_ManagedFieldsEntry : Type;
  (** [gardencorev1beta1.SchemeGroupVersion.String()] *)
  SchemeGroupVersion : string
}.

Record metav1_TypeMeta := {
  APIVersion : string;
  Kind : string
}.

Record metav1_ObjectMeta `{Schema} := {
  Name : string;
  ManagedFields : list metav1_ManagedFieldsEntry
}.

(** A Kubernetes object: embedded type and object metadata, and a spec. *)
Record Object `{Schema} (S : Type) := {
  TypeMeta : metav1_TypeMeta;
  ObjectMeta : metav1_ObjectMeta;
  Spec : S
}.
Arguments TypeMeta {_ S} _.
Arguments ObjectMeta {_ S} _.
Arguments Spec {_ S} _.
Arguments Build_Object {_ S} _ _ _.

(** [core.ProviderConfig] and [v1beta1.ProviderConfig]: a raw extension of
    which only the bytes are read. *)
Record core_ProviderConfig := {
  Raw : bytes
}.

Record core_Provider `{Schema} := {
  InfrastructureConfig : option core_ProviderConfig;
  ControlPlaneConfig : option core_ProviderConfig;
  Workers : list core_Worker
}.

Record core_ShootSpec `{Schema} := {
  CloudProfileName : string;
  Region : string;
  SeedName : option string;
  Networking : core_Networking;
  Provider : core_Provider
}.

Record core_CloudProfileSpec := {
  ProviderConfig : option core_ProviderConfig
}.

(** [core.Shoot] and [v1beta1.Shoot] have the same shape here, as have the
    two versions of [CloudProfile]. *)
Definition core_Shoot `{Schema} : Type := Object core_ShootSpec.
Definition core_CloudProfile `{Schema} : Type := Object core_CloudProfileSpec.
Definition core_Seed `{Schema} : Type := Object core_SeedSpec.

Module runtime.

Record RawExtension (T : Type) := {
  Raw : bytes;
  Object : option T
}.
Arguments Raw {T} _.
Arguments Object {T} _.
Arguments Build_RawExtension {T} _ _.

End runtime.

Module extensionsv1alpha1.

Record ClusterSpec `{Schema} := {
  CloudProfile : runtime.RawExtension core_CloudProfile;
  Seed : runtime.RawExtension core_Seed;
  Shoot : runtime.RawExtension core_Shoot
}.

Definition Cluster `{Schema} : Type := Object ClusterSpec.

(** [cluster.Spec.CloudProfile = r], and likewise for the other two fields. *)
Definition setCloudProfile `{Schema} (r : runtime.RawExtension core_CloudProfile)
    (cluster : Cluster) : Cluster :=
  {| TypeMeta := cluster.(TypeMeta);
     ObjectMeta := cluster.(ObjectMeta);
     Spec := {| CloudProfile := r;
                Seed := cluster.(Spec).(Seed);
                Shoot := cluster.(Spec).(Shoot) |} |}.

Definition setSeed `{Schema} (r : runtime.RawExtension core_Seed)
    (cluster : Cluster) : Cluster :=
  {| TypeMeta := cluster.(TypeMeta);
     ObjectMeta := cluster.(ObjectMeta);
     Spec := {| CloudProfile := cluster.(Spec).(CloudProfile);
                Seed := r;
                Shoot := cluster.(Spec).(Shoot) |} |}.

Definition setShoot `{Schema} (r : runtime.RawExtension core_Shoot)
    (cluster : Cluster) : Cluster :=
  {| TypeMeta := cluster.(TypeMeta);
     ObjectMeta := cluster.(ObjectMeta);
     Spec := {| CloudProfile := cluster.(Spec).(CloudProfile);
                Seed := cluster.(Spec).(Seed);
                Shoot := r |} |}.

End extensionsv1alpha1.

(** [extensions.Cluster] ([controller.Cluster] is the same struct): the
    decoded resources of a Cluster resource. *)
Record Cluster `{Schema} := {
  Cluster_ObjectMeta : metav1_ObjectMeta;
  CloudProfile : option core_CloudProfile;
  Seed : option core_Seed;
  Shoot : option core_Shoot
}.

(** ** The collaborators: decoder, decode helper and API client *)

(** [runtime.Decoder]: [Decode(raw, nil, into)] for a zero-valued [into] of
    the given type gives an error or the filled object. *)
Class Decoder `{Schema} := {
  decoder_Decode : ∀ k : vsphere.Target, bytes → error + obj k
}.

(** [util.Decode(decoder, data, into)] of gardener-extensions with the
    package's decoder, for a zero-valued [into] of the given type: an error or
    the filled object.  The function is not part of the sources and is a
    parameter of its own: what it makes of bytes need not be what
    [decoder.Decode(data, nil, into)] makes of them. *)
Class Util `{Schema} := {
  util_Decode_result : ∀ k : vsphere.Target, bytes → error + obj k
}.

(** [client.Client], read side: [Get(ctx, kutil.Key(name), &cloudProfile)]. *)
Class Client `{Schema} := {
  client_Get : string → error + core_CloudProfile
}.

Definition liftResult {A} (r : error + A) : M A :=
  match r with
  | inl e => fail e
  | inr a => mret a
  end.

(** ** Package helper (pkg/apis/vsphere/helper/scheme.go) *)

Section Helper.
Context `{Sch : Schema} `{Dec : !Decoder} `{Utl : !Util}.

(** [decoder.Decode(raw, nil, into)] on the package's decoder. *)
Definition decode (k : vsphere.Target) (raw : bytes) : M (obj k) :=
  emit (Decode k raw) ;; liftResult (decoder_Decode k raw).

(** [util.Decode(decoder, data, into)] of gardener-extensions. *)
Definition util_Decode (k : vsphere.Target) (data : bytes) : M (obj k) :=
  emit (Decode k data) ;; liftResult (util_Decode_result k data).

Definition DecodeControlPlaneConfig (cp : core_ProviderConfig) (fldPath : field.Path)
  : M (obj vsphere.ControlPlaneConfig) :=
  onError
    (λ _, field_Error (field.Invalid fldPath (bytes_string cp.(Raw)) "cannot be decoded"))
    (util_Decode vsphere.ControlPlaneConfig cp.(Raw)).

Definition DecodeInfrastructureConfig (infra : core_ProviderConfig) (fldPath : field.Path)
  : M (obj vsphere.InfrastructureConfig) :=
  onError
    (λ _, fmt_Errorf "cannot be decoded" [])
    (util_Decode vsphere.InfrastructureConfig infra.(Raw)).

Definition DecodeCloudProfileConfig (config : core_ProviderConfig) (fldPath : field.Path)
  : M (obj vsphere.CloudProfileConfig) :=
  onError
    (λ _, field_Error (field.Invalid fldPath (bytes_string config.(Raw)) "cannot be decoded"))
    (util_Decode vsphere.CloudProfileConfig config.(Raw)).

Definition GetControlPlaneConfig (cluster : Cluster) : M (obj vsphere.ControlPlaneConfig) :=
  shoot ← deref cluster.(Shoot);
  match shoot.(Spec).(Provider).(ControlPlaneConfig) with
  | Some cp =>
      onError
        (λ err, errors_Wrap err
                  ("could not decode providerConfig of controlplane '"
                   +:+ shoot.(ObjectMeta).(Name) +:+ "'"))
        (decode vsphere.ControlPlaneConfig cp.(Raw))
  | None => mret (zero vsphere.ControlPlaneConfig)
  end.

Definition GetInfrastructureStatus (name : string) (extension : option (runtime.RawExtension unit))
  : M (option (obj vsphere.InfrastructureStatus)) :=
  match extension with
  | Some {| runtime.Raw := Some raw |} =>
      onError
        (λ err, errors_Wrap err
                  ("could not decode infrastructureProviderStatus of controlplane '"
                   +:+ name +:+ "'"))
        (infraStatus ← decode vsphere.InfrastructureStatus (Some raw); mret (Some infraStatus))
  | _ => mret None
  end.

Definition GetInfrastructureConfig (cluster : Cluster) : M (obj vsphere.InfrastructureConfig) :=
  shoot ← deref cluster.(Shoot);
  match shoot.(Spec).(Provider).(InfrastructureConfig) with
  | Some {| Raw := Some raw |} => decode vsphere.InfrastructureConfig (Some raw)
  | _ => mret (zero vsphere.InfrastructureConfig)
  end.

End Helper.

(** ** Package validation, infrastructure part (the file under src) *)

Module validation.

Definition ValidateInfrastructureConfig `{Schema}
    (infra : obj vsphere.InfrastructureConfig) (nodesCIDR : option string)
    (fldPath : field.Path) : field.ErrorList :=
  let allErrs : field.ErrorList := [] in
  allErrs.

Definition ValidateInfrastructureConfigUpdate `{Schema}
    (oldConfig newConfig : obj vsphere.InfrastructureConfig)
    (fldPath : field.Path) : field.ErrorList :=
  let allErrs : field.ErrorList := [] in
  allErrs.

Definition ValidateInfrastructureConfigAgainstCloudProfile `{Schema}
    (infra : obj vsphere.InfrastructureConfig) (shootRegion : string)
    (cloudProfileConfig : obj vsphere.CloudProfileConfig)
    (fldPath : field.Path) : field.ErrorList :=
  let allErrs : field.ErrorList := [] in
  allErrs.

End validation.

(** Package validation as its callers see it ([vspherevalidation] in the shoot
    validator).  The callers are written against this interface: of its
    functions only the three infrastructure validators above are part of the
    sources at hand. *)
Class vspherevalidation `{Schema} := {
  ValidateInfrastructureConfig :
    obj vsphere.InfrastructureConfig → option string → field.Path → field.ErrorList;
  ValidateInfrastructureConfigUpdate :
    obj vsphere.InfrastructureConfig → obj vsphere.InfrastructureConfig →
    field.Path → field.ErrorList;
  ValidateInfrastructureConfigAgainstCloudProfile :
    obj vsphere.InfrastructureConfig → string → obj vsphere.CloudProfileConfig →
    field.Path → field.ErrorList;
  ValidateControlPlaneConfig :
    obj vsphere.ControlPlaneConfig → field.Path → field.ErrorList;
  ValidateControlPlaneConfigUpdate :
    obj vsphere.ControlPlaneConfig → obj vsphere.ControlPlaneConfig →
    field.Path → field.ErrorList;
  ValidateControlPlaneConfigAgainstCloudProfile :
    obj vsphere.ControlPlaneConfig → string → core_CloudProfile →
    obj vsphere.CloudProfileConfig → field.Path → field.ErrorList;
  ValidateNetworking : core_Networking → field.Path → field.ErrorList;
  ValidateWorkers : list core_Worker → field.Path → field.ErrorList;
  ValidateWorkersUpdate :
    list core_Worker → list core_Worker → field.Path → field.ErrorList;
  ValidateCloudProfileConfig : obj vsphere.CloudProfileConfig → field.ErrorList
}.

(** The package with the infrastructure validators of this repository. *)
Definition infrastructureFromSource `{Schema} (V : vspherevalidation) : Prop :=
  (∀ infra nodesCIDR fldPath,
     ValidateInfrastructureConfig infra nodesCIDR fldPath
     = validation.ValidateInfrastructureConfig infra nodesCIDR fldPath) ∧
  (∀ oldConfig newConfig fldPath,
     ValidateInfrastructureConfigUpdate oldConfig newConfig fldPath
     = validation.ValidateInfrastructureConfigUpdate oldConfig newConfig fldPath) ∧
  (∀ infra shootRegion cloudProfileConfig fldPath,
     ValidateInfrastructureConfigAgainstCloudProfile infra shootRegion cloudProfileConfig fldPath
     = validation.ValidateInfrastructureConfigAgainstCloudProfile
         infra shootRegion cloudProfileConfig fldPath).

(** [if errList := check(...); len(errList) != 0 { return errList.ToAggregate() }] *)
Definition returnIfErrors (c : Check) (errList : field.ErrorList) : M unit :=
  emit (Validate c) ;;
  match errList with
  | [] => mret tt
  | _ :: _ => fail (Aggregate errList)
  end.

Section HelperCloudProfile.
Context `{Sch : Schema} `{Dec : !Decoder} `{Utl : !Util} `{Val : !vspherevalidation}.

Definition GetCloudProfileConfig (cluster : option Cluster)
  : M (option (obj vsphere.CloudProfileConfig)) :=
  match cluster with
  | Some {| CloudProfile := Some cloudProfile |} =>
      match cloudProfile.(Spec).(ProviderConfig) with
      | Some providerConfig =>
          match providerConfig.(Raw) with
          | Some _ =>
              cloudProfileConfig ←
                onError
                  (λ err, errors_Wrap err
                            ("cloud profile " +:+ cloudProfile.(ObjectMeta).(Name)))
                  (DecodeCloudProfileConfig providerConfig
                     (field.NewPath "cloudprofile" ["spec"; "providerConfig"]));
              onError
                (λ err, errors_Wrap err
                          ("validation of providerConfig of cloud profile "
                           +:+ cloudProfile.(ObjectMeta).(Name) +:+ " failed"))
                (returnIfErrors CheckCloudProfileConfig
                   (ValidateCloudProfileConfig cloudProfileConfig)) ;;
              mret (Some cloudProfileConfig)
          | None => mret None
          end
      | None => mret None
      end
  | _ => mret None
  end.

End HelperCloudProfile.

(** ** The shoot validator (create and update flows) *)

Record validationContext `{Schema} := {
  shoot : core_Shoot;
  infraConfig : obj vsphere.InfrastructureConfig;
  cpConfig : obj vsphere.ControlPlaneConfig
}.

Definition specPath : field.Path := field.NewPath "spec" [].
Definition providerConfigPath : field.Path := field.Child specPath "providerConfig".
Definition nwPath : field.Path := field.Child specPath "networking".
Definition providerPath : field.Path := field.Child specPath "provider".
Definition infraConfigPath : field.Path := field.Child providerPath "infrastructureConfig".
Definition cpConfigPath : field.Path := field.Child providerPath "controlPlaneConfig".
Definition workersPath : field.Path := field.Child providerPath "workers".

Section Validator.
Context `{Sch : Schema} `{Dec : !Decoder} `{Utl : !Util} `{Cli : !Client} `{Val : !vspherevalidation}.

(** [v.client.Get(ctx, kutil.Key(name), cloudProfile)] *)
Definition clientGet (name : string) : M core_CloudProfile :=
  emit (Get name) ;; liftResult (client_Get name).

(** The [decoder] argument of the source is not used by its body: decoding
    goes through package helper. *)
Definition newValidationContext (shoot : core_Shoot) : M validationContext :=
  match shoot.(Spec).(Provider).(InfrastructureConfig) with
  | None =>
      fail (field_Error (field.Required infraConfigPath
                           "infrastructureConfig must be set for OpenStack shoots"))
  | Some infrastructureConfig =>
      infraConfig ← DecodeInfrastructureConfig infrastructureConfig infraConfigPath;
      match shoot.(Spec).(Provider).(ControlPlaneConfig) with
      | None =>
          fail (field_Error (field.Required cpConfigPath
                               "controlPlaneConfig must be set for OpenStack shoots"))
      | Some controlPlaneConfig =>
          cpConfig ← DecodeControlPlaneConfig controlPlaneConfig cpConfigPath;
          mret {| shoot := shoot; infraConfig := infraConfig; cpConfig := cpConfig |}
      end
  end.

Definition validateInfraAgainstCloudProfile (shoot : core_Shoot)
    (infraConfig : obj vsphere.InfrastructureConfig) (fldPath : field.Path) : M unit :=
  cloudProfile ← clientGet shoot.(Spec).(CloudProfileName);
  match cloudProfile.(Spec).(ProviderConfig) with
  | None =>
      fail (fmt_Errorf "providerConfig is not given for cloud profile %q"
              [argString cloudProfile.(ObjectMeta).(Name)])
  | Some providerConfig =>
      cloudProfileConfig ←
        onError
          (λ err, fmt_Errorf "an error occurred while reading the cloud profile %q: %v"
                    [argString cloudProfile.(ObjectMeta).(Name); argError err])
          (DecodeCloudProfileConfig providerConfig providerConfigPath);
      returnIfErrors CheckInfrastructureConfigAgainstCloudProfile
        (ValidateInfrastructureConfigAgainstCloudProfile
           infraConfig shoot.(Spec).(Region) cloudProfileConfig fldPath)
  end.

Definition validateCpAgainstCloudProfile (shoot : core_Shoot)
    (cpConfig : obj vsphere.ControlPlaneConfig) (fldPath : field.Path) : M unit :=
  cloudProfile ← clientGet shoot.(Spec).(CloudProfileName);
  match cloudProfile.(Spec).(ProviderConfig) with
  | None =>
      fail (fmt_Errorf "providerConfig is not given for cloud profile %q"
              [argString cloudProfile.(ObjectMeta).(Name)])
  | Some providerConfig =>
      cloudProfileConfig ←
        onError
          (λ err, fmt_Errorf "an error occurred while reading the cloud profile %q: %v"
                    [argString cloudProfile.(ObjectMeta).(Name); argError err])
          (DecodeCloudProfileConfig providerConfig providerConfigPath);
      returnIfErrors CheckControlPlaneConfigAgainstCloudProfile
        (ValidateControlPlaneConfigAgainstCloudProfile
           cpConfig shoot.(Spec).(Region) cloudProfile cloudProfileConfig fldPath)
  end.

Definition validateShoot (context : validationContext) : M unit :=
  returnIfErrors CheckNetworking
    (ValidateNetworking context.(shoot).(Spec).(Networking) nwPath) ;;
  returnIfErrors CheckInfrastructureConfig
    (ValidateInfrastructureConfig context.(infraConfig)
       (Nodes context.(shoot).(Spec).(Networking)) infraConfigPath) ;;
  returnIfErrors CheckControlPlaneConfig
    (ValidateControlPlaneConfig context.(cpConfig) cpConfigPath) ;;
  returnIfErrors CheckWorkers
    (ValidateWorkers context.(shoot).(Spec).(Provider).(Workers) workersPath).

Definition validateShootCreation (shoot : core_Shoot) : M unit :=
  valContext ← newValidationContext shoot;
  validateInfraAgainstCloudProfile shoot valContext.(infraConfig) infraConfigPath ;;
  validateCpAgainstCloudProfile shoot valContext.(cpConfig) cpConfigPath ;;
  validateShoot valContext.

Definition validateShootUpdate (oldShoot shoot : core_Shoot) : M unit :=
  oldValContext ← newValidationContext oldShoot;
  valContext ← newValidationContext shoot;
  returnIfErrors CheckInfrastructureConfigUpdate
    (ValidateInfrastructureConfigUpdate
       oldValContext.(infraConfig) valContext.(infraConfig) infraConfigPath) ;;
  returnIfErrors CheckControlPlaneConfigUpdate
    (ValidateControlPlaneConfigUpdate
       oldValContext.(cpConfig) valContext.(cpConfig) cpConfigPath) ;;
  returnIfErrors CheckWorkersUpdate
    (ValidateWorkersUpdate oldShoot.(Spec).(Provider).(Workers)
       shoot.(Spec).(Provider).(Workers) workersPath) ;;
  validateShoot valContext.

End Validator.

(** ** Package extensions (gardener/pkg/extensions/cluster.go) *)

Module extensions.

(** [controllerutil.CreateOrUpdate(ctx, client, obj, mutate)] over a state
    [W] of the seed's API server: the object passed in, the mutation of the
    object (the one of this code never fails), the state before; the state
    after and the error. *)
Class ClusterClient `{Schema} (W : Type) := {
  controllerutil_CreateOrUpdate :
    extensionsv1alpha1.Cluster →
    (extensionsv1alpha1.Cluster → extensionsv1alpha1.Cluster) →
    W → W * option error
}.

(** A copy of [o] with its [TypeMeta] set and its managed fields dropped. *)
Definition withTypeMeta `{Schema} {S : Type} (kind : string) (o : Object S) : Object S :=
  {| TypeMeta := {| APIVersion := SchemeGroupVersion; Kind := kind |};
     ObjectMeta := {| Name := o.(ObjectMeta).(Name); ManagedFields := [] |};
     Spec := o.(Spec) |}.

(** [&extensionsv1alpha1.Cluster{ObjectMeta: metav1.ObjectMeta{Name: name}}] *)
Definition newCluster `{Schema} (name : string) : extensionsv1alpha1.Cluster :=
  {| TypeMeta := {| APIVersion := ""; Kind := "" |};
     ObjectMeta := {| Name := name; ManagedFields := [] |};
     Spec := {| extensionsv1alpha1.CloudProfile := runtime.Build_RawExtension None None;
                extensionsv1alpha1.Seed := runtime.Build_RawExtension None None;
                extensionsv1alpha1.Shoot := runtime.Build_RawExtension None None |} |}.

(** The function literal handed to [CreateOrUpdate]. *)
Definition syncMutate `{Schema}
    (cloudProfileObj : option core_CloudProfile) (seedObj : option core_Seed)
    (shootObj : option core_Shoot)
    (cluster : extensionsv1alpha1.Cluster) : extensionsv1alpha1.Cluster :=
  let cluster :=
    match cloudProfileObj with
    | Some o => extensionsv1alpha1.setCloudProfile (runtime.Build_RawExtension None (Some o)) cluster
    | None => cluster
    end in
  let cluster :=
    match seedObj with
    | Some o => extensionsv1alpha1.setSeed (runtime.Build_RawExtension None (Some o)) cluster
    | None => cluster
    end in
  match shootObj with
  | Some o => extensionsv1alpha1.setShoot (runtime.Build_RawExtension None (Some o)) cluster
  | None => cluster
  end.

Definition SyncClusterResourceToSeed `{Schema} {W : Type} `{!ClusterClient W}
    (clusterName : string) (shoot : option core_Shoot)
    (cloudProfile : option core_CloudProfile) (seed : option core_Seed)
    (w : W) : W * outcome unit :=
  match shoot with
  | None => (w, Panic nilDereference)
  | Some shoot' =>
      match shoot'.(Spec).(SeedName) with
      | None => (w, Ok tt)
      | Some _ =>
          let cluster := newCluster clusterName in
          let cloudProfileObj :=
            match cloudProfile with
            | Some cloudProfile => Some (withTypeMeta "CloudProfile" cloudProfile)
            | None => None
            end in
          let seedObj :=
            match seed with
            | Some seed => Some (withTypeMeta "Seed" seed)
            | None => None
            end in
          let shootObj :=
            match shoot with
            | Some shoot => Some (withTypeMeta "Shoot" shoot)
            | None => None
            end in
          let '(w', err) :=
            controllerutil_CreateOrUpdate cluster
              (syncMutate cloudProfileObj seedObj shootObj) w in
          (w', match err with
               | None => Ok tt
               | Some e => Err e
               end)
      end
  end.

(** Modelled from the spec: [controllerutil.CreateOrUpdate] and the API
    client are not part of the sources; the spec calls the operation an
    upsert with create-or-update semantics.  The seed holds the Cluster
    resources by name.  An object that is not found is mutated as passed in
    and created; a stored one is read, mutated and written back. *)
#[export] Instance memoryClient `{Schema}
  : ClusterClient (gmap string extensionsv1alpha1.Cluster) := {|
  controllerutil_CreateOrUpdate obj mutate store :=
    let key := obj.(ObjectMeta).(Name) in
    match store !! key with
    | None => (<[key := mutate obj]> store, None)
    | Some existing => (<[key := mutate existing]> store, None)
    end
|}.

(** The stored Cluster resource of that name, or the one a create starts from. *)
Definition storedOrNew `{Schema} (name : string)
    (store : gmap string extensionsv1alpha1.Cluster) : extensionsv1alpha1.Cluster :=
  default (newCluster name) (store !! name).

(** *** Reading the Cluster resource *)

(** [gardenScheme] with the Garden API installed: the internal types, the
    conversion of an internal object to its v1beta1 version
    ([gardenScheme.Convert(in, out, nil)]), and what the universal decoder
    of the scheme's codec factory makes of bytes
    ([decoder.Decode(raw, nil, into)] for a zero-valued internal [into]). *)
Class GardenScheme `{Schema} := {
  internal_CloudProfile : Type;
  internal_Seed : Type;
  internal_Shoot : Type;
  Convert_CloudProfile : internal_CloudProfile → error + core_CloudProfile;
  Convert_Seed : internal_Seed → error + core_Seed;
  Convert_Shoot : internal_Shoot → error + core_Shoot;
  codec_CloudProfile : bytes → error + internal_CloudProfile;
  codec_Seed : bytes → error + internal_Seed;
  codec_Shoot : bytes → error + internal_Shoot
}.

(** A [runtime.Decoder] for the Garden API. *)
Record GardenDecoder `{GardenScheme} := {
  Decode_CloudProfile : bytes → error + internal_CloudProfile;
  Decode_Seed : bytes → error + internal_Seed;
  Decode_Shoot : bytes → error + internal_Shoot
}.

Definition NewGardenDecoder `{GardenScheme} : GardenDecoder :=
  {| Decode_CloudProfile := codec_CloudProfile;
     Decode_Seed := codec_Seed;
     Decode_Shoot := codec_Shoot |}.

(** [c.Get(ctx, kutil.Key(namespace), cluster)] of the client handed in. *)
Definition ClusterGetter `{Schema} : Type := string → error + extensionsv1alpha1.Cluster.

Definition CloudProfileFromCluster `{GardenScheme} (decoder : GardenDecoder)
    (cluster : extensionsv1alpha1.Cluster) : outcome (option core_CloudProfile) :=
  match cluster.(Spec).(extensionsv1alpha1.CloudProfile).(runtime.Raw) with
  | None => Ok None
  | Some raw =>
      match decoder.(Decode_CloudProfile) (Some raw) with
      | inl err => Err err
      | inr cloudProfileInternal =>
          match Convert_CloudProfile cloudProfileInternal with
          | inl err => Err err
          | inr cloudProfile => Ok (Some cloudProfile)
          end
      end
  end.

Definition SeedFromCluster `{GardenScheme} (decoder : GardenDecoder)
    (cluster : extensionsv1alpha1.Cluster) : outcome (option core_Seed) :=
  match cluster.(Spec).(extensionsv1alpha1.Seed).(runtime.Raw) with
  | None => Ok None
  | Some raw =>
      match decoder.(Decode_Seed) (Some raw) with
      | inl err => Err err
      | inr seedInternal =>
          match Convert_Seed seedInternal with
          | inl err => Err err
          | inr seed => Ok (Some seed)
          end
      end
  end.

Definition ShootFromCluster `{GardenScheme} (decoder : GardenDecoder)
    (cluster : extensionsv1alpha1.Cluster) : outcome (option core_Shoot) :=
  match cluster.(Spec).(extensionsv1alpha1.Shoot).(runtime.Raw) with
  | None => Ok None
  | Some raw =>
      match decoder.(Decode_Shoot) (Some raw) with
      | inl err => Err err
      | inr shootInternal =>
          match Convert_Shoot shootInternal with
          | inl err => Err err
          | inr shoot => Ok (Some shoot)
          end
      end
  end.

(** [x, err := f(); if err != nil { return nil, err }] on plain outcomes. *)
Definition andThen {A B} (r : outcome A) (k : A → outcome B) : outcome B :=
  match r with
  | Ok a => k a
  | Err e => Err e
  | Panic msg => Panic msg
  end.

Definition GetCluster `{GardenScheme} (c : ClusterGetter) (namespace : string)
  : outcome Cluster :=
  match c namespace with
  | inl err => Err err
  | inr cluster =>
      let decoder := NewGardenDecoder in
      andThen (CloudProfileFromCluster decoder cluster) (λ cloudProfile,
      andThen (SeedFromCluster decoder cluster) (λ seed,
      andThen (ShootFromCluster decoder cluster) (λ shoot,
      Ok {| Cluster_ObjectMeta := cluster.(ObjectMeta);
            CloudProfile := cloudProfile;
            Seed := seed;
            Shoot := shoot |})))
  end.

Definition GetShoot `{GardenScheme} (c : ClusterGetter) (namespace : string)
  : outcome (option core_Shoot) :=
  match c namespace with
  | inl err => Err err
  | inr cluster => ShootFromCluster NewGardenDecoder cluster
  end.

End extensions.

(** ** Readings of results used in the statements *)

(** A [field.Required] error. *)
Definition isRequired (e : error) : bool :=
  match e with
  | field_Error {| field.Type_ := field.ErrorTypeRequired |} => true
  | _ => false
  end.

(** The bytes [GetCloudProfileConfig] looks for:
    [cluster.CloudProfile.Spec.ProviderConfig.Raw], nil as soon as one of the
    pointers on the way is. *)
Definition providerConfigBytes `{Schema} (cluster : option Cluster) : bytes :=
  c ← cluster;
  cloudProfile ← c.(CloudProfile);
  providerConfig ← cloudProfile.(Spec).(ProviderConfig);
  providerConfig.(Raw).

Section Readings.
Context `{Sch : Schema} `{Dec : !Decoder} `{Utl : !Util} `{Cli : !Client} `{Val : !vspherevalidation}.

(** A step of the create flow returns the error [e], the steps before it
    having succeeded; [t] is what was called up to there. *)
Inductive createFailsAt (shoot : core_Shoot) : list Event → error → Prop :=
| failsAtContext t e :
    newValidationContext shoot = (t, Err e) →
    createFailsAt shoot t e
| failsAtInfraProfile t1 valContext t2 e :
    newValidationContext shoot = (t1, Ok valContext) →
    validateInfraAgainstCloudProfile shoot valContext.(infraConfig) infraConfigPath
      = (t2, Err e) →
    createFailsAt shoot (t1 ++ t2) e
| failsAtCpProfile t1 valContext t2 t3 e :
    newValidationContext shoot = (t1, Ok valContext) →
    validateInfraAgainstCloudProfile shoot valContext.(infraConfig) infraConfigPath
      = (t2, Ok tt) →
    validateCpAgainstCloudProfile shoot valContext.(cpConfig) cpConfigPath
      = (t3, Err e) →
    createFailsAt shoot (t1 ++ t2 ++ t3) e
| failsAtShoot t1 valContext t2 t3 t4 e :
    newValidationContext shoot = (t1, Ok valContext) →
    validateInfraAgainstCloudProfile shoot valContext.(infraConfig) infraConfigPath
      = (t2, Ok tt) →
    validateCpAgainstCloudProfile shoot valContext.(cpConfig) cpConfigPath
      = (t3, Ok tt) →
    validateShoot valContext = (t4, Err e) →
    createFailsAt shoot (t1 ++ t2 ++ t3 ++ t4) e.

End Readings.

(** The first non-empty error list of a sequence of checks, and the result
    a flow returns for it. *)
Fixpoint firstErrors (lists : list field.ErrorList) : field.ErrorList :=
  match lists with
  | [] => []
  | [] :: rest => firstErrors rest
  | errs :: _ => errs
  end.

Definition verdict (errs : field.ErrorList) : outcome unit :=
  match errs with
  | [] => Ok tt
  | _ :: _ => Err (Aggregate errs)
  end.

(** The checks that are called: those up to the first one with errors. *)
Fixpoint calledChecks (checks : list (Check * field.ErrorList)) : list Check :=
  match checks with
  | [] => []
  | (c, []) :: rest => c :: calledChecks rest
  | (c, _ :: _) :: _ => [c]
  end.

(** The calls by which a flow reads the cloud profile. *)
Definition readsCloudProfile (ev : Event) : bool :=
  match ev with
  | Get _ => true
  | Decode vsphere.CloudProfileConfig _ => true
  | _ => false
  end.

(** The shoot [s] with another infrastructure config. *)
Definition withInfrastructureConfig `{Schema} (infra : option core_ProviderConfig)
    (s : core_Shoot) : core_Shoot :=
  {| TypeMeta := s.(TypeMeta);
     ObjectMeta := s.(ObjectMeta);
     Spec := {| CloudProfileName := s.(Spec).(CloudProfileName);
                Region := s.(Spec).(Region);
                SeedName := s.(Spec).(SeedName);
                Networking := s.(Spec).(Networking);
                Provider := {| InfrastructureConfig := infra;
                               ControlPlaneConfig := s.(Spec).(Provider).(ControlPlaneConfig);
                               Workers := s.(Spec).(Provider).(Workers) |} |} |}.

(** What reading the cloud profile of a shoot comes to, before the check
    proper: the client's error, the missing provider config, the provider
    config that does not decode, or the profile with its decoded config. *)
Definition readCloudProfile `{Sch : Schema} `{Utl : !Util} `{Cli : !Client}
    (s : core_Shoot)
  : list Event * (error + core_CloudProfile * obj vsphere.CloudProfileConfig) :=
  let name := s.(Spec).(CloudProfileName) in
  match client_Get name with
  | inl e => ([Get name], inl e)
  | inr cloudProfile =>
      match cloudProfile.(Spec).(ProviderConfig) with
      | None =>
          ([Get name],
           inl (fmt_Errorf "providerConfig is not given for cloud profile %q"
                  [argString cloudProfile.(ObjectMeta).(Name)]))
      | Some providerConfig =>
          match util_Decode_result vsphere.CloudProfileConfig providerConfig.(Raw) with
          | inl _ =>
              ([Get name; Decode vsphere.CloudProfileConfig providerConfig.(Raw)],
               inl (fmt_Errorf "an error occurred while reading the cloud profile %q: %v"
                      [argString cloudProfile.(ObjectMeta).(Name);
                       argError
                         (field_Error
                            (field.Invalid providerConfigPath
                               (bytes_string providerConfig.(Raw)) "cannot be decoded"))]))
          | inr cloudProfileConfig =>
              ([Get name; Decode vsphere.CloudProfileConfig providerConfig.(Raw)],
               inr (cloudProfile, cloudProfileConfig))
          end
      end
  end.

(** ** A small instance, for running the functions on concrete requests *)

Module fixture.

(** Configuration objects are their JSON text; the zero value is the empty text. *)
Definition schema : Schema := {|
  obj := λ _, string;
  zero := λ _, "";
  core_Worker := string;
  core_Networking := option string;
  Nodes := λ nodes, nodes;
  core_SeedSpec := unit;
  metav1_ManagedFieldsEntry := string;
  SchemeGroupVersion := "core.gardener.cloud/v1beta1"
|}.
#[local] Existing Instance schema.

(** No bytes give the zero value, bytes that open a JSON object are taken
    as they are, anything else is refused. *)
Definition decoder : Decoder := {|
  decoder_Decode := λ _ raw,
    match raw with
    | None => inr ""
    | Some s =>
        if decide (s = "") then inr ""
        else if String.prefix "{" s then inr s
        else inl (external "decoder" "couldn't get version/kind; json parse error")
    end
|}.

(** [util.Decode] takes bytes that open a JSON object as they are and refuses
    everything else, no bytes included. *)
Definition util : Util := {|
  util_Decode_result := λ _ raw,
    match raw with
    | None => inl (external "decoder" "couldn't get version/kind; json parse error")
    | Some s =>
        if String.prefix "{" s then inr s
        else inl (external "decoder" "couldn't get version/kind; json parse error")
    end
|}.

Definition meta (name : string) : metav1_ObjectMeta :=
  {| Name := name; ManagedFields := ["gardener-apiserver"] |}.

Definition noTypeMeta : metav1_TypeMeta := {| APIVersion := ""; Kind := "" |}.

Definition profile (name : string) (providerConfig : option core_ProviderConfig)
  : core_CloudProfile :=
  {| TypeMeta := noTypeMeta; ObjectMeta := meta name;
     Spec := {| ProviderConfig := providerConfig |} |}.

(** The garden cluster holds two cloud profiles: [vsphere], with a provider
    config, and [bare], without one. *)
Definition client : Client := {|
  client_Get := λ name,
    if decide (name = "vsphere") then inr (profile "vsphere" (Some {| Raw := Some "{}" |}))
    else if decide (name = "bare") then inr (profile "bare" None)
    else inl (external "client" "cloudprofiles.core.gardener.cloud not found")
|}.

Definition immutable (fldPath : field.Path) (old new : string) : field.ErrorList :=
  if decide (old = new) then [] else [field.Invalid fldPath new "field is immutable"].

(** The infrastructure validators of the repository; control plane configs
    may not change; a cloud profile config must not be the empty object. *)
Definition validators : vspherevalidation := {|
  ValidateInfrastructureConfig := validation.ValidateInfrastructureConfig;
  ValidateInfrastructureConfigUpdate := validation.ValidateInfrastructureConfigUpdate;
  ValidateInfrastructureConfigAgainstCloudProfile :=
    validation.ValidateInfrastructureConfigAgainstCloudProfile;
  ValidateControlPlaneConfig := λ _ _, [];
  ValidateControlPlaneConfigUpdate := λ old new fldPath, immutable fldPath old new;
  ValidateControlPlaneConfigAgainstCloudProfile := λ _ _ _ _ _, [];
  ValidateNetworking := λ _ _, [];
  ValidateWorkers := λ _ _, [];
  ValidateWorkersUpdate := λ _ _ _, [];
  ValidateCloudProfileConfig := λ config,
    if decide (config = "{}")
    then [field.Required (field.NewPath "namePrefix" []) "must be set"]
    else []
|}.

(** As [validators], with a control plane check against the cloud profile
    that takes only the control plane config the profile config names. *)
Definition profileValidators : vspherevalidation := {|
  ValidateInfrastructureConfig := validation.ValidateInfrastructureConfig;
  ValidateInfrastructureConfigUpdate := validation.ValidateInfrastructureConfigUpdate;
  ValidateInfrastructureConfigAgainstCloudProfile :=
    validation.ValidateInfrastructureConfigAgainstCloudProfile;
  ValidateControlPlaneConfig := λ _ _, [];
  ValidateControlPlaneConfigUpdate := λ old new fldPath, immutable fldPath old new;
  ValidateControlPlaneConfigAgainstCloudProfile := λ cpConfig _ _ cloudProfileConfig fldPath,
    if decide (cpConfig = cloudProfileConfig) then []
    else [field.Invalid fldPath cpConfig "not defined in cloud profile"];
  ValidateNetworking := λ _ _, [];
  ValidateWorkers := λ _ _, [];
  ValidateWorkersUpdate := λ _ _ _, [];
  ValidateCloudProfileConfig := λ _, []
|}.

Definition newShoot (cloudProfileName : string) (seedName : option string)
    (infra cp : option core_ProviderConfig) : core_Shoot :=
  {| TypeMeta := noTypeMeta; ObjectMeta := meta "shoot--dev--a";
     Spec := {| CloudProfileName := cloudProfileName;
                Region := "region-a";
                SeedName := seedName;
                Networking := Some "10.250.0.0/16";
                Provider := {| InfrastructureConfig := infra;
                               ControlPlaneConfig := cp;
                               Workers := ["worker-a"] |} |} |}.

Definition raw (s : string) : option core_ProviderConfig := Some {| Raw := Some s |}.

Definition seed : core_Seed :=
  {| TypeMeta := noTypeMeta; ObjectMeta := meta "seed-a"; Spec := tt |}.

Definition clusterOf (cloudProfile : option core_CloudProfile) (shoot : option core_Shoot)
  : Cluster :=
  {| Cluster_ObjectMeta := meta "shoot--dev--a";
     CloudProfile := cloudProfile; Seed := None; Shoot := shoot |}.

(** A Cluster resource as a seed holds it: the three fields as raw bytes. *)
Definition storedCluster : extensionsv1alpha1.Cluster :=
  {| TypeMeta := {| APIVersion := "extensions.gardener.cloud/v1alpha1"; Kind := "Cluster" |};
     ObjectMeta := meta "shoot--dev--a";
     Spec := {| extensionsv1alpha1.CloudProfile :=
                  runtime.Build_RawExtension (Some "{cloudprofile}") None;
                extensionsv1alpha1.Seed := runtime.Build_RawExtension (Some "{seed}") None;
                extensionsv1alpha1.Shoot := runtime.Build_RawExtension (Some "{shoot}") None |} |}.

(** A client whose state is the number of requests it has served. *)
Definition countingClient : extensions.ClusterClient nat := {|
  extensions.controllerutil_CreateOrUpdate := λ _ _ requests, (S requests, None)
|}.

(** A garden cluster whose only cloud profile, [broken], has a provider
    config that is no JSON object. *)
Definition brokenClient : Client := {|
  client_Get := λ name,
    if decide (name = "broken") then inr (profile "broken" (raw "garbage"))
    else inl (external "client" "cloudprofiles.core.gardener.cloud not found")
|}.

(** The Garden API with internal objects that are already the versioned
    ones; the codec takes the name of the object from bytes [{name}] and
    refuses anything else. *)
Definition named {A} (make : string → A) (raw : bytes) : error + A :=
  match raw with
  | Some (String c rest) =>
      if String.eqb (String c "") "{" then inr (make rest)
      else inl (external "decoder" "couldn't get version/kind; json parse error")
  | _ => inl (external "decoder" "couldn't get version/kind; json parse error")
  end.

Definition gardenScheme : extensions.GardenScheme := {|
  extensions.internal_CloudProfile := core_CloudProfile;
  extensions.internal_Seed := core_Seed;
  extensions.internal_Shoot := core_Shoot;
  extensions.Convert_CloudProfile := inr;
  extensions.Convert_Seed := inr;
  extensions.Convert_Shoot := inr;
  extensions.codec_CloudProfile := named (λ name, profile name None);
  extensions.codec_Seed := named (λ _, seed);
  extensions.codec_Shoot := named (λ name, newShoot name None None None)
|}.

(** A seed with one Cluster resource, [shoot--dev--a], that carries a cloud
    profile and a seed but no shoot. *)
Definition getter : extensions.ClusterGetter := λ namespace,
  if decide (namespace = "shoot--dev--a")
  then inr {| TypeMeta := noTypeMeta; ObjectMeta := meta "shoot--dev--a";
              Spec := {| extensionsv1alpha1.CloudProfile :=
                           runtime.Build_RawExtension (Some "{vsphere") None;
                         extensionsv1alpha1.Seed :=
                           runtime.Build_RawExtension (Some "{seed-a") None;
                         extensionsv1alpha1.Shoot :=
                           runtime.Build_RawExtension None None |} |}
  else inl (external "client" "clusters.extensions.gardener.cloud not found").

End fixture.

(** * Properties *)

(** ** The monad: how a sequence of calls runs *)

Lemma bind_ok {A B} (m : M A) (f : A → M B) t a :
  m = (t, Ok a) → m ≫= f = (t ++ trace (f a), result (f a)).
Proof. intros ->. unfold mbind, M_bind, trace, result. by destruct (f a). Qed.

Lemma bind_err {A B} (m : M A) (f : A → M B) t e :
  m = (t, Err e) → m ≫= f = (t, Err e).
Proof. by intros ->. Qed.

Lemma bind_panic {A B} (m : M A) (f : A → M B) t msg :
  m = (t, Panic msg) → m ≫= f = (t, Panic msg).
Proof. by intros ->. Qed.

Lemma bind_ok_eq {A B} (m : M A) (f : A → M B) t a t' r :
  m = (t, Ok a) → f a = (t', r) → m ≫= f = (t ++ t', r).
Proof. intros Hm Hf. by rewrite (bind_ok _ _ _ _ Hm), Hf. Qed.

Lemma bind_ok_run {A B} (f : A → M B) t a :
  (t, Ok a) ≫= f = (t ++ trace (f a), result (f a)).
Proof. by apply bind_ok. Qed.

Lemma bind_err_run {A B} (f : A → M B) t e : (t, Err e) ≫= f = (t, Err e).
Proof. reflexivity. Qed.

Lemma bind_panic_run {A B} (f : A → M B) t msg : (t, Panic msg) ≫= f = (t, Panic msg).
Proof. reflexivity. Qed.

Lemma run_eq {A} (m : M A) : m = (trace m, result m).
Proof. by destruct m. Qed.

Lemma deref_Some {A B} (a : A) (f : A → M B) : deref (Some a) ≫= f = f a.
Proof. unfold deref, mret, M_ret, mbind, M_bind. by destruct (f a). Qed.



Section HelperFacts.
Context `{Sch : Schema} `{Dec : !Decoder} `{Utl : !Util}.

Lemma decode_ok k raw o :
  decoder_Decode k raw = inr o → decode k raw = ([Decode k raw], Ok o).
Proof. intros H. unfold decode. cbn. by rewrite H. Qed.

Lemma decode_err k raw e :
  decoder_Decode k raw = inl e → decode k raw = ([Decode k raw], Err e).
Proof. intros H. unfold decode. cbn. by rewrite H. Qed.

(** A decode of the helper is one call of the decoder and never panics. *)
Lemma decode_cases k raw :
  (∃ o, decoder_Decode k raw = inr o ∧ decode k raw = ([Decode k raw], Ok o)) ∨
  (∃ e, decoder_Decode k raw = inl e ∧ decode k raw = ([Decode k raw], Err e)).
Proof.
  destruct (decoder_Decode k raw) as [e|o] eqn:H.
  - right. exists e. split; [done | by apply decode_err].
  - left. exists o. split; [done | by apply decode_ok].
Qed.

Lemma util_Decode_ok k data o :
  util_Decode_result k data = inr o → util_Decode k data = ([Decode k data], Ok o).
Proof. intros H. unfold util_Decode. cbn. by rewrite H. Qed.

Lemma util_Decode_err k data e :
  util_Decode_result k data = inl e → util_Decode k data = ([Decode k data], Err e).
Proof. intros H. unfold util_Decode. cbn. by rewrite H. Qed.

Lemma DecodeInfrastructureConfig_ok infra fldPath o :
  util_Decode_result vsphere.InfrastructureConfig infra.(Raw) = inr o →
  DecodeInfrastructureConfig infra fldPath
  = ([Decode vsphere.InfrastructureConfig infra.(Raw)], Ok o).
Proof.
  intros H. unfold DecodeInfrastructureConfig. by rewrite (util_Decode_ok _ _ _ H).
Qed.

Lemma DecodeInfrastructureConfig_err infra fldPath e :
  util_Decode_result vsphere.InfrastructureConfig infra.(Raw) = inl e →
  DecodeInfrastructureConfig infra fldPath
  = ([Decode vsphere.InfrastructureConfig infra.(Raw)], Err (fmt_Errorf "cannot be decoded" [])).
Proof.
  intros H. unfold DecodeInfrastructureConfig. by rewrite (util_Decode_err _ _ _ H).
Qed.

Lemma DecodeControlPlaneConfig_ok cp fldPath o :
  util_Decode_result vsphere.ControlPlaneConfig cp.(Raw) = inr o →
  DecodeControlPlaneConfig cp fldPath
  = ([Decode vsphere.ControlPlaneConfig cp.(Raw)], Ok o).
Proof.
  intros H. unfold DecodeControlPlaneConfig. by rewrite (util_Decode_ok _ _ _ H).
Qed.

Lemma DecodeControlPlaneConfig_err cp fldPath e :
  util_Decode_result vsphere.ControlPlaneConfig cp.(Raw) = inl e →
  DecodeControlPlaneConfig cp fldPath
  = ([Decode vsphere.ControlPlaneConfig cp.(Raw)],
     Err (field_Error (field.Invalid fldPath (bytes_string cp.(Raw)) "cannot be decoded"))).
Proof.
  intros H. unfold DecodeControlPlaneConfig. by rewrite (util_Decode_err _ _ _ H).
Qed.

Lemma DecodeCloudProfileConfig_ok config fldPath o :
  util_Decode_result vsphere.CloudProfileConfig config.(Raw) = inr o →
  DecodeCloudProfileConfig config fldPath
  = ([Decode vsphere.CloudProfileConfig config.(Raw)], Ok o).
Proof.
  intros H. unfold DecodeCloudProfileConfig. by rewrite (util_Decode_ok _ _ _ H).
Qed.

Lemma DecodeCloudProfileConfig_err config fldPath e :
  util_Decode_result vsphere.CloudProfileConfig config.(Raw) = inl e →
  DecodeCloudProfileConfig config fldPath
  = ([Decode vsphere.CloudProfileConfig config.(Raw)],
     Err (field_Error (field.Invalid fldPath (bytes_string config.(Raw)) "cannot be decoded"))).
Proof.
  intros H. unfold DecodeCloudProfileConfig. by rewrite (util_Decode_err _ _ _ H).
Qed.

End HelperFacts.

(** ** The infrastructure validators *)

(** C6: for every infrastructure config, nodes CIDR, pair of old and new
    configs, shoot region, cloud profile config and field path, the validators
    [ValidateInfrastructureConfig], [ValidateInfrastructureConfigUpdate] and
    [ValidateInfrastructureConfigAgainstCloudProfile] return the empty error
    list: they enforce no constraint. *)
Theorem infrastructure_validators_return_no_errors `{Sch : Schema}
    (infra oldConfig newConfig : obj vsphere.InfrastructureConfig)
    (nodesCIDR : option string) (shootRegion : string)
    (cloudProfileConfig : obj vsphere.CloudProfileConfig) (fldPath : field.Path) :
  validation.ValidateInfrastructureConfig infra nodesCIDR fldPath = [] ∧
  validation.ValidateInfrastructureConfigUpdate oldConfig newConfig fldPath = [] ∧
  validation.ValidateInfrastructureConfigAgainstCloudProfile
    infra shootRegion cloudProfileConfig fldPath = [].
Proof. repeat split. Qed.

(** ** The validation context builder *)

Lemma infraConfigPath_string :
  field.PathString infraConfigPath = "spec.provider.infrastructureConfig".
Proof. reflexivity. Qed.

Lemma cpConfigPath_string :
  field.PathString cpConfigPath = "spec.provider.controlPlaneConfig".
Proof. reflexivity. Qed.

Section ContextBuilder.
Context `{Sch : Schema} `{Dec : !Decoder} `{Utl : !Util}.

(** The builder never panics, and a context it returns holds the shoot it was
    given and what [util.Decode] made of the two payloads. *)
Lemma newValidationContext_cases (shoot : core_Shoot) :
  (∃ t e, newValidationContext shoot = (t, Err e)) ∨
  (∃ infra cp infraConfig cpConfig,
     shoot.(Spec).(Provider).(InfrastructureConfig) = Some infra ∧
     shoot.(Spec).(Provider).(ControlPlaneConfig) = Some cp ∧
     util_Decode_result vsphere.InfrastructureConfig infra.(Raw) = inr infraConfig ∧
     util_Decode_result vsphere.ControlPlaneConfig cp.(Raw) = inr cpConfig ∧
     newValidationContext shoot
     = ([Decode vsphere.InfrastructureConfig infra.(Raw);
         Decode vsphere.ControlPlaneConfig cp.(Raw)],
        Ok {| shoot := shoot; infraConfig := infraConfig; cpConfig := cpConfig |})).
Proof.
  unfold newValidationContext.
  destruct (shoot.(Spec).(Provider).(InfrastructureConfig)) as [infra|] eqn:Hinfra;
    [| left; by eexists _, _].
  destruct (util_Decode_result vsphere.InfrastructureConfig infra.(Raw)) as [e|infraConfig] eqn:Hdi.
  { left. rewrite (bind_err _ _ _ _ (DecodeInfrastructureConfig_err _ _ _ Hdi)). by eexists _, _. }
  rewrite (bind_ok _ _ _ _ (DecodeInfrastructureConfig_ok _ _ _ Hdi)).
  destruct (shoot.(Spec).(Provider).(ControlPlaneConfig)) as [cp|] eqn:Hcp;
    [| left; by eexists _, _].
  destruct (util_Decode_result vsphere.ControlPlaneConfig cp.(Raw)) as [e|cpConfig] eqn:Hdc.
  { left. rewrite (bind_err _ _ _ _ (DecodeControlPlaneConfig_err _ _ _ Hdc)). by eexists _, _. }
  right. exists infra, cp, infraConfig, cpConfig.
  rewrite (bind_ok _ _ _ _ (DecodeControlPlaneConfig_ok _ _ _ Hdc)). done.
Qed.

(** C1, as amended: when the shoot's [InfrastructureConfig] is nil, the
    builder fails with the required-field error at
    [spec.provider.infrastructureConfig] and no decode has been attempted.
    When [ControlPlaneConfig] is nil and [InfrastructureConfig] is given, the
    infrastructure config is decoded first (and only it): if it decodes, the
    builder fails with the required-field error at
    [spec.provider.controlPlaneConfig]; if it does not, the builder fails with
    the decode error of the infrastructure config. *)
Theorem newValidationContext_required_fields (shoot : core_Shoot) :
  shoot.(Spec).(Provider).(InfrastructureConfig) = None ∨
  shoot.(Spec).(Provider).(ControlPlaneConfig) = None →
  match shoot.(Spec).(Provider).(InfrastructureConfig) with
  | None =>
      newValidationContext shoot
      = ([], Err (field_Error (field.Required infraConfigPath
                                 "infrastructureConfig must be set for OpenStack shoots")))
  | Some infra =>
      match util_Decode_result vsphere.InfrastructureConfig infra.(Raw) with
      | inr _ =>
          newValidationContext shoot
          = ([Decode vsphere.InfrastructureConfig infra.(Raw)],
             Err (field_Error (field.Required cpConfigPath
                                 "controlPlaneConfig must be set for OpenStack shoots")))
      | inl _ =>
          newValidationContext shoot
          = ([Decode vsphere.InfrastructureConfig infra.(Raw)],
             Err (fmt_Errorf "cannot be decoded" []))
      end
  end.
Proof.
  intros Hnil. unfold newValidationContext.
  destruct (shoot.(Spec).(Provider).(InfrastructureConfig)) as [infra|] eqn:Hinfra; [|done].
  destruct Hnil as [|Hcp]; [done|]. rewrite Hcp.
  destruct (util_Decode_result vsphere.InfrastructureConfig infra.(Raw)) as [e|infraConfig] eqn:Hdi.
  - by rewrite (bind_err _ _ _ _ (DecodeInfrastructureConfig_err _ _ _ Hdi)).
  - by rewrite (bind_ok _ _ _ _ (DecodeInfrastructureConfig_ok _ _ _ Hdi)).
Qed.

End ContextBuilder.

(** C1 on a request: the control plane config is missing and the
    infrastructure config decodes. *)
Lemma newValidationContext_required_fields_witness :
  @newValidationContext fixture.schema fixture.util
    (fixture.newShoot "vsphere" None (fixture.raw "{}") None)
  = ([Decode vsphere.InfrastructureConfig (Some "{}")],
     Err (field_Error
            {| field.Type_ := field.ErrorTypeRequired;
               field.Field := "spec.provider.controlPlaneConfig";
               field.BadValue := "";
               field.Detail := "controlPlaneConfig must be set for OpenStack shoots" |})).
Proof.
  exact (@newValidationContext_required_fields fixture.schema fixture.util
           (fixture.newShoot "vsphere" None (fixture.raw "{}") None)
           (or_intror eq_refl)).
Defined.

(** C1 as stated fails: the control plane config of this shoot is nil, yet
    the builder has called [util.Decode] on the infrastructure config before
    looking at it, and the error it returns is that decode's error, which is
    no required-field error. *)
Lemma newValidationContext_decode_error_despite_nil_payload :
  let shoot := fixture.newShoot "vsphere" None (fixture.raw "garbage") None in
  shoot.(Spec).(Provider).(ControlPlaneConfig) = None ∧
  @newValidationContext fixture.schema fixture.util shoot
  = ([Decode vsphere.InfrastructureConfig (Some "garbage")],
     Err (fmt_Errorf "cannot be decoded" [])) ∧
  isRequired (fmt_Errorf "cannot be decoded" []) = false.
Proof. repeat split. Qed.

(** A provider config that is given with nil bytes is not a missing field:
    the bytes go to [util.Decode], and what it says decides.  Here it refuses
    them, and the error is the decode error, not a required-field error. *)
Example newValidationContext_nil_bytes_are_decoded :
  @newValidationContext fixture.schema fixture.util
    (fixture.newShoot "vsphere" None (Some {| Raw := None |}) (Some {| Raw := None |}))
  = ([Decode vsphere.InfrastructureConfig None],
     Err (fmt_Errorf "cannot be decoded" [])).
Proof. reflexivity. Qed.

(** ** Checks against the cloud profile *)

Section CloudProfileChecks.
Context `{Sch : Schema} `{Dec : !Decoder} `{Utl : !Util} `{Cli : !Client} `{Val : !vspherevalidation}.

Lemma clientGet_ok name cloudProfile :
  client_Get name = inr cloudProfile → clientGet name = ([Get name], Ok cloudProfile).
Proof. intros H. unfold clientGet. cbn. by rewrite H. Qed.

Lemma clientGet_err name e :
  client_Get name = inl e → clientGet name = ([Get name], Err e).
Proof. intros H. unfold clientGet. cbn. by rewrite H. Qed.

(** C4: when the cloud profile fetched for the shoot has no [ProviderConfig],
    both checks against the cloud profile fail with the error
    [providerConfig is not given for cloud profile %q] formatted with the
    profile's name, whatever the shoot's infrastructure or control plane
    config is; nothing is decoded or validated. *)
Theorem cloud_profile_without_provider_config
    (s : core_Shoot) (cloudProfile : core_CloudProfile)
    (infraConfig : obj vsphere.InfrastructureConfig)
    (cpConfig : obj vsphere.ControlPlaneConfig) (fldPath : field.Path) :
  client_Get s.(Spec).(CloudProfileName) = inr cloudProfile →
  cloudProfile.(Spec).(ProviderConfig) = None →
  validateInfraAgainstCloudProfile s infraConfig fldPath
  = ([Get s.(Spec).(CloudProfileName)],
     Err (fmt_Errorf "providerConfig is not given for cloud profile %q"
            [argString cloudProfile.(ObjectMeta).(Name)])) ∧
  validateCpAgainstCloudProfile s cpConfig fldPath
  = ([Get s.(Spec).(CloudProfileName)],
     Err (fmt_Errorf "providerConfig is not given for cloud profile %q"
            [argString cloudProfile.(ObjectMeta).(Name)])).
Proof.
  intros Hget Hnone.
  unfold validateInfraAgainstCloudProfile, validateCpAgainstCloudProfile.
  rewrite !(bind_ok _ _ _ _ (clientGet_ok _ _ Hget)), Hnone. done.
Qed.

(** ** The create flow *)

(** When a step of the create flow (build the context, check the
    infrastructure config against the cloud profile, check the control plane
    config against the cloud profile, validate the shoot) returns an error,
    the steps before it having passed, [validateShootCreation] returns that
    error, and what has been called is what the steps up to that one called. *)
Lemma validateShootCreation_stops_at_first_error
    (s : core_Shoot) (t : list Event) (e : error) :
  createFailsAt s t e → validateShootCreation s = (t, Err e).
Proof.
  unfold validateShootCreation.
  destruct 1 as [t e Hctx | t1 vc t2 e Hctx Hinfra | t1 vc t2 t3 e Hctx Hinfra Hcp
                | t1 vc t2 t3 t4 e Hctx Hinfra Hcp Hshoot].
  - by apply bind_err.
  - eapply bind_ok_eq; [done|]. by apply bind_err.
  - eapply bind_ok_eq; [done|]. eapply bind_ok_eq; [done|]. by apply bind_err.
  - eapply bind_ok_eq; [done|]. eapply bind_ok_eq; [done|]. eapply bind_ok_eq; [done|].
    done.
Qed.

(** The converse: an error of the create flow is the error of one of its
    steps, reached after the steps before it passed. *)
Lemma validateShootCreation_error_comes_from_a_step
    (s : core_Shoot) (t : list Event) (e : error) :
  validateShootCreation s = (t, Err e) → createFailsAt s t e.
Proof.
  unfold validateShootCreation.
  destruct (newValidationContext s) as [t1 [vc|e1|msg]] eqn:Hctx.
  2: { rewrite bind_err_run. intros [= <- <-]. by constructor. }
  2: { by rewrite bind_panic_run. }
  rewrite bind_ok_run. cbv beta.
  destruct (validateInfraAgainstCloudProfile s vc.(infraConfig) infraConfigPath)
    as [t2 [[]|e2|msg]] eqn:Hinfra.
  2: { rewrite bind_err_run. intros [= <- <-]. by eapply failsAtInfraProfile. }
  2: { by rewrite bind_panic_run. }
  rewrite bind_ok_run. cbv beta.
  destruct (validateCpAgainstCloudProfile s vc.(cpConfig) cpConfigPath)
    as [t3 [[]|e3|msg]] eqn:Hcp.
  2: { rewrite bind_err_run. intros [= <- <-]. by eapply failsAtCpProfile. }
  2: { by rewrite bind_panic_run. }
  rewrite bind_ok_run. cbv beta. unfold trace, result. cbn [fst snd].
  intros [= <- Hres]. eapply failsAtShoot; [done..|].
  rewrite (run_eq (validateShoot vc)). unfold trace, result. by rewrite Hres.
Qed.

(** ** The update flow *)


(** With the infrastructure validators of this repository the infrastructure
    update check finds nothing, so an update never stops at it. *)
Lemma infrastructure_update_check_from_source
    (oldConfig newConfig : obj vsphere.InfrastructureConfig) :
  infrastructureFromSource Val →
  returnIfErrors CheckInfrastructureConfigUpdate
    (ValidateInfrastructureConfigUpdate oldConfig newConfig infraConfigPath)
  = ([Validate CheckInfrastructureConfigUpdate], Ok tt).
Proof. intros (_ & Hupd & _). by rewrite Hupd. Qed.

End CloudProfileChecks.

(** C4 on a request: the shoot names the cloud profile [bare], which has no
    provider config. *)
Lemma cloud_profile_without_provider_config_witness :
  let s := fixture.newShoot "bare" None (fixture.raw "{}") (fixture.raw "{}") in
  @validateInfraAgainstCloudProfile fixture.schema fixture.util fixture.client
    fixture.validators s "{}" infraConfigPath
  = ([Get "bare"],
     Err (fmt_Errorf "providerConfig is not given for cloud profile %q" [argString "bare"])) ∧
  @validateCpAgainstCloudProfile fixture.schema fixture.util fixture.client
    fixture.validators s "{}" infraConfigPath
  = ([Get "bare"],
     Err (fmt_Errorf "providerConfig is not given for cloud profile %q" [argString "bare"])).
Proof.
  exact (@cloud_profile_without_provider_config fixture.schema fixture.util
           fixture.client fixture.validators
           (fixture.newShoot "bare" None (fixture.raw "{}") (fixture.raw "{}"))
           (fixture.profile "bare" None) "{}" "{}" infraConfigPath eq_refl eq_refl).
Defined.


(** ** Package helper: absent payloads *)

Section AbsentPayloads.
Context `{Sch : Schema} `{Dec : !Decoder} `{Utl : !Util} `{Val : !vspherevalidation}.

(** The four ways for the provider config bytes of a cluster to be absent. *)
Lemma providerConfigBytes_None (cluster : option Cluster) :
  providerConfigBytes cluster = None ↔
  cluster = None ∨
  (∃ c, cluster = Some c ∧
     (c.(CloudProfile) = None ∨
      ∃ cloudProfile, c.(CloudProfile) = Some cloudProfile ∧
        (cloudProfile.(Spec).(ProviderConfig) = None ∨
         ∃ providerConfig,
           cloudProfile.(Spec).(ProviderConfig) = Some providerConfig ∧
           providerConfig.(Raw) = None))).
Proof.
  unfold providerConfigBytes. split.
  - destruct cluster as [c|]; [|by left]. cbn.
    destruct (c.(CloudProfile)) as [cloudProfile|] eqn:Hc; cbn;
      [|intros _; right; exists c; split; [done | by left]].
    destruct (cloudProfile.(Spec).(ProviderConfig)) as [providerConfig|] eqn:Hp; cbn.
    + intros Hraw. right. exists c. split; [done|]. right.
      exists cloudProfile. split; [done|]. right. by exists providerConfig.
    + intros _. right. exists c. split; [done|]. right.
      exists cloudProfile. split; [done | by left].
  - intros [-> | (c & -> & [Hc | (cloudProfile & Hc & [Hp | (providerConfig & Hp & Hraw)])])];
      cbn; [done | by rewrite Hc | by rewrite Hc; cbn; rewrite Hp | ].
    rewrite Hc. cbn. by rewrite Hp.
Qed.

Lemma GetCloudProfileConfig_absent (cluster : option Cluster) :
  providerConfigBytes cluster = None →
  GetCloudProfileConfig cluster = ([], Ok None).
Proof.
  unfold providerConfigBytes, GetCloudProfileConfig.
  destruct cluster as [[meta [cloudProfile|] seed shoot]|]; cbn; [|done..].
  destruct (cloudProfile.(Spec).(ProviderConfig)) as [providerConfig|]; cbn; [|done].
  by intros ->.
Qed.

Lemma GetCloudProfileConfig_present (c : Cluster) (cloudProfile : core_CloudProfile)
    (providerConfig : core_ProviderConfig) (raw : string) :
  c.(CloudProfile) = Some cloudProfile →
  cloudProfile.(Spec).(ProviderConfig) = Some providerConfig →
  providerConfig.(Raw) = Some raw →
  GetCloudProfileConfig (Some c)
  = match util_Decode_result vsphere.CloudProfileConfig (Some raw) with
    | inl _ =>
        ([Decode vsphere.CloudProfileConfig (Some raw)],
         Err (errors_Wrap
                (field_Error
                   (field.Invalid (field.NewPath "cloudprofile" ["spec"; "providerConfig"])
                      raw "cannot be decoded"))
                ("cloud profile " +:+ cloudProfile.(ObjectMeta).(Name))))
    | inr cloudProfileConfig =>
        ([Decode vsphere.CloudProfileConfig (Some raw); Validate CheckCloudProfileConfig],
         match ValidateCloudProfileConfig cloudProfileConfig with
         | [] => Ok (Some cloudProfileConfig)
         | errs =>
             Err (errors_Wrap (Aggregate errs)
                    ("validation of providerConfig of cloud profile "
                     +:+ cloudProfile.(ObjectMeta).(Name) +:+ " failed"))
         end)
    end.
Proof.
  intros Hc Hp Hraw. unfold GetCloudProfileConfig.
  destruct c as [meta cp seed shoot]. cbn in Hc. subst cp. rewrite Hp, Hraw.
  destruct (util_Decode_result vsphere.CloudProfileConfig (Some raw)) as [e|cfg] eqn:Hd.
  - rewrite <- Hraw in Hd.
    rewrite (DecodeCloudProfileConfig_err _ _ _ Hd), Hraw. reflexivity.
  - rewrite <- Hraw in Hd.
    rewrite (DecodeCloudProfileConfig_ok _ _ _ Hd), Hraw.
    change (onError ?f (?t, Ok ?a)) with (t, @Ok _ a). rewrite bind_ok_run. cbv beta.
    destruct (ValidateCloudProfileConfig cfg) as [|err errs] eqn:Hv.
    + reflexivity.
    + reflexivity.
Qed.

(** C10: [GetCloudProfileConfig] returns a nil config and a nil error, without
    decoding anything, whenever the cluster, its cloud profile, the profile's
    [Spec.ProviderConfig] or the raw bytes of that are nil.  When the bytes are
    there they are decoded, a decode failure is returned as an error, the
    decoded config is checked with [ValidateCloudProfileConfig], and a
    non-empty list of violations is returned as an error; otherwise the
    decoded config is returned. *)
Theorem GetCloudProfileConfig_absent_or_validated (cluster : option Cluster) :
  (providerConfigBytes cluster = None →
   GetCloudProfileConfig cluster = ([], Ok None)) ∧
  (∀ c cloudProfile providerConfig raw,
     cluster = Some c →
     c.(CloudProfile) = Some cloudProfile →
     cloudProfile.(Spec).(ProviderConfig) = Some providerConfig →
     providerConfig.(Raw) = Some raw →
     GetCloudProfileConfig cluster
     = match util_Decode_result vsphere.CloudProfileConfig (Some raw) with
       | inl _ =>
           ([Decode vsphere.CloudProfileConfig (Some raw)],
            Err (errors_Wrap
                   (field_Error
                      (field.Invalid (field.NewPath "cloudprofile" ["spec"; "providerConfig"])
                         raw "cannot be decoded"))
                   ("cloud profile " +:+ cloudProfile.(ObjectMeta).(Name))))
       | inr cloudProfileConfig =>
           ([Decode vsphere.CloudProfileConfig (Some raw); Validate CheckCloudProfileConfig],
            match ValidateCloudProfileConfig cloudProfileConfig with
            | [] => Ok (Some cloudProfileConfig)
            | errs =>
                Err (errors_Wrap (Aggregate errs)
                       ("validation of providerConfig of cloud profile "
                        +:+ cloudProfile.(ObjectMeta).(Name) +:+ " failed"))
            end)
       end).
Proof.
  split.
  - apply GetCloudProfileConfig_absent.
  - intros c cloudProfile providerConfig raw -> Hc Hp Hraw.
    by apply GetCloudProfileConfig_present with providerConfig.
Qed.

End AbsentPayloads.

(** C10 on two clusters: one without a cloud profile, and one whose cloud
    profile config decodes and is refused by the validation. *)
Lemma GetCloudProfileConfig_absent_or_validated_witness :
  @GetCloudProfileConfig fixture.schema fixture.util fixture.validators
    (Some (fixture.clusterOf None None))
  = ([], Ok None) ∧
  @GetCloudProfileConfig fixture.schema fixture.util fixture.validators
    (Some (fixture.clusterOf (Some (fixture.profile "vsphere" (fixture.raw "{}"))) None))
  = ([Decode vsphere.CloudProfileConfig (Some "{}"); Validate CheckCloudProfileConfig],
     Err (errors_Wrap
            (Aggregate [field.Required (field.NewPath "namePrefix" []) "must be set"])
            "validation of providerConfig of cloud profile vsphere failed")).
Proof.
  split.
  - exact (proj1 (@GetCloudProfileConfig_absent_or_validated fixture.schema fixture.util
                    fixture.validators (Some (fixture.clusterOf None None))) eq_refl).
  - exact (proj2 (@GetCloudProfileConfig_absent_or_validated fixture.schema fixture.util
                    fixture.validators
                    (Some (fixture.clusterOf
                             (Some (fixture.profile "vsphere" (fixture.raw "{}"))) None)))
             _ _ _ "{}" eq_refl eq_refl eq_refl eq_refl).
Defined.

(** ** Package helper: what the getters do with absent payloads *)

Section DecodeOperations.
Context `{Sch : Schema} `{Dec : !Decoder} `{Utl : !Util} `{Val : !vspherevalidation}.

(** C5, as amended.  [GetInfrastructureConfig] returns the zero-value config
    and no error, without a decode, when the shoot's infrastructure config or
    its raw bytes are nil, and [GetControlPlaneConfig] when the shoot's
    control plane config is nil.  [GetInfrastructureStatus] and
    [GetCloudProfileConfig] return no object (nil) and no error for a nil
    payload.  Otherwise these getters hand the bytes to [decoder.Decode] as
    they are: [GetControlPlaneConfig] for a config that is given, whatever
    its bytes, [GetInfrastructureConfig] and [GetInfrastructureStatus] for
    bytes that are not nil, empty ones included; the result is the decoder's
    object, and an error only when the decoder refuses the bytes. *)
Theorem helper_getters_on_absent_payloads :
  (∀ (cluster : Cluster) (s : core_Shoot),
     cluster.(Shoot) = Some s →
     s.(Spec).(Provider).(InfrastructureConfig) = None ∨
     s.(Spec).(Provider).(InfrastructureConfig) = Some {| Raw := None |} →
     GetInfrastructureConfig cluster = ([], Ok (zero vsphere.InfrastructureConfig))) ∧
  (∀ (cluster : Cluster) (s : core_Shoot),
     cluster.(Shoot) = Some s →
     s.(Spec).(Provider).(ControlPlaneConfig) = None →
     GetControlPlaneConfig cluster = ([], Ok (zero vsphere.ControlPlaneConfig))) ∧
  (∀ (name : string) (extension : option (runtime.RawExtension unit)),
     extension = None ∨ (∃ ext, extension = Some ext ∧ ext.(runtime.Raw) = None) →
     GetInfrastructureStatus name extension = ([], Ok None)) ∧
  (∀ cluster : option Cluster,
     providerConfigBytes cluster = None →
     GetCloudProfileConfig cluster = ([], Ok None)) ∧
  (∀ (cluster : Cluster) (s : core_Shoot) (cp : core_ProviderConfig),
     cluster.(Shoot) = Some s →
     s.(Spec).(Provider).(ControlPlaneConfig) = Some cp →
     GetControlPlaneConfig cluster
     = ([Decode vsphere.ControlPlaneConfig cp.(Raw)],
        match decoder_Decode vsphere.ControlPlaneConfig cp.(Raw) with
        | inr o => Ok o
        | inl e =>
            Err (errors_Wrap e
                   ("could not decode providerConfig of controlplane '"
                    +:+ s.(ObjectMeta).(Name) +:+ "'"))
        end)) ∧
  (∀ (cluster : Cluster) (s : core_Shoot) (raw : string),
     cluster.(Shoot) = Some s →
     s.(Spec).(Provider).(InfrastructureConfig) = Some {| Raw := Some raw |} →
     GetInfrastructureConfig cluster
     = ([Decode vsphere.InfrastructureConfig (Some raw)],
        match decoder_Decode vsphere.InfrastructureConfig (Some raw) with
        | inr o => Ok o
        | inl e => Err e
        end)) ∧
  (∀ (name : string) (ext : runtime.RawExtension unit) (raw : string),
     ext.(runtime.Raw) = Some raw →
     GetInfrastructureStatus name (Some ext)
     = ([Decode vsphere.InfrastructureStatus (Some raw)],
        match decoder_Decode vsphere.InfrastructureStatus (Some raw) with
        | inr o => Ok (Some o)
        | inl e =>
            Err (errors_Wrap e
                   ("could not decode infrastructureProviderStatus of controlplane '"
                    +:+ name +:+ "'"))
        end)).
Proof.
  repeat apply conj.
  - intros cluster s Hs Hnil. unfold GetInfrastructureConfig. rewrite Hs. cbn.
    by destruct Hnil as [-> | ->].
  - intros cluster s Hs Hnil. unfold GetControlPlaneConfig. rewrite Hs. cbn.
    by rewrite Hnil.
  - intros name extension [-> | (ext & -> & Hraw)]; [done|].
    destruct ext as [r o]. cbn in Hraw. by subst r.
  - apply GetCloudProfileConfig_absent.
  - intros cluster s cp Hs Hcp. unfold GetControlPlaneConfig.
    rewrite Hs, deref_Some, Hcp.
    destruct (decode_cases vsphere.ControlPlaneConfig cp.(Raw))
      as [(o & -> & H) | (e & -> & H)]; by rewrite H.
  - intros cluster s raw Hs Hinfra. unfold GetInfrastructureConfig.
    rewrite Hs, deref_Some, Hinfra.
    destruct (decode_cases vsphere.InfrastructureConfig (Some raw))
      as [(o & -> & H) | (e & -> & H)]; by rewrite H.
  - intros name [r o] raw Hraw. cbn in Hraw. subst r. unfold GetInfrastructureStatus.
    destruct (decode_cases vsphere.InfrastructureStatus (Some raw))
      as [(st & -> & H) | (e & -> & H)]; by rewrite H.
Qed.

End DecodeOperations.

(** C5 on concrete payloads, with a decoder that gives the zero value for no
    bytes and refuses text that is no JSON object. *)
Lemma helper_getters_on_absent_payloads_witness :
  let _ := fixture.schema in
  let _ := fixture.decoder in
  let _ := fixture.util in
  let _ := fixture.validators in
  let cluster infra cp :=
    fixture.clusterOf None (Some (fixture.newShoot "vsphere" None infra cp)) in
  GetInfrastructureConfig (cluster None None) = ([], Ok "") ∧
  GetInfrastructureConfig (cluster (Some {| Raw := None |}) None) = ([], Ok "") ∧
  GetControlPlaneConfig (cluster None None) = ([], Ok "") ∧
  GetInfrastructureStatus "shoot--dev--a" None = ([], Ok None) ∧
  GetInfrastructureStatus "shoot--dev--a" (Some (runtime.Build_RawExtension None (Some tt)))
  = ([], Ok None) ∧
  GetCloudProfileConfig (Some (fixture.clusterOf (Some (fixture.profile "bare" None)) None))
  = ([], Ok None) ∧
  GetControlPlaneConfig (cluster None (fixture.raw "{}"))
  = ([Decode vsphere.ControlPlaneConfig (Some "{}")], Ok "{}") ∧
  GetInfrastructureConfig (cluster (fixture.raw "garbage") None)
  = ([Decode vsphere.InfrastructureConfig (Some "garbage")],
     Err (external "decoder" "couldn't get version/kind; json parse error")) ∧
  GetInfrastructureStatus "shoot--dev--a"
    (Some (runtime.Build_RawExtension (Some "garbage") (Some tt)))
  = ([Decode vsphere.InfrastructureStatus (Some "garbage")],
     Err (errors_Wrap (external "decoder" "couldn't get version/kind; json parse error")
            "could not decode infrastructureProviderStatus of controlplane 'shoot--dev--a'")).
Proof.
  destruct (@helper_getters_on_absent_payloads fixture.schema fixture.decoder fixture.util
              fixture.validators)
    as (Hinfra & Hcp & Hstatus & Hprofile & Hcp' & Hinfra' & Hstatus').
  cbv zeta. repeat apply conj.
  - eapply Hinfra; [reflexivity | left; reflexivity].
  - eapply Hinfra; [reflexivity | right; reflexivity].
  - eapply Hcp; reflexivity.
  - apply Hstatus. left. reflexivity.
  - apply Hstatus. right. eexists. split; reflexivity.
  - apply Hprofile. reflexivity.
  - exact (Hcp' (fixture.clusterOf None
                   (Some (fixture.newShoot "vsphere" None None (fixture.raw "{}"))))
             (fixture.newShoot "vsphere" None None (fixture.raw "{}"))
             {| Raw := Some "{}" |} eq_refl eq_refl).
  - exact (Hinfra' (fixture.clusterOf None
                      (Some (fixture.newShoot "vsphere" None (fixture.raw "garbage") None)))
             (fixture.newShoot "vsphere" None (fixture.raw "garbage") None)
             "garbage" eq_refl eq_refl).
  - exact (Hstatus' "shoot--dev--a" (runtime.Build_RawExtension (Some "garbage") (Some tt))
             "garbage" eq_refl).
Defined.

(** C5 as stated fails: for a cloud profile whose provider config has nil
    bytes, and for a status extension with nil bytes, the helper returns no
    object at all (a nil pointer) where the claim has a zero-value object. *)
Lemma nil_payload_gives_nil_object :
  let _ := fixture.schema in
  let _ := fixture.decoder in
  let _ := fixture.util in
  let _ := fixture.validators in
  GetCloudProfileConfig
    (Some (fixture.clusterOf (Some (fixture.profile "vsphere" (Some {| Raw := None |}))) None))
  = ([], Ok None) ∧
  GetInfrastructureStatus "shoot--dev--a" (Some (runtime.Build_RawExtension None None))
  = ([], Ok None).
Proof. cbv zeta. split; reflexivity. Qed.

(** ** Package extensions: the Cluster resource upsert *)

Section ClusterSync.
Context `{Sch : Schema}.

(** C9: for a shoot without a seed name, [SyncClusterResourceToSeed] returns
    nil at once: whatever the client is, the state behind it is the one before
    the call, so no create or update has reached it. *)
Theorem SyncClusterResourceToSeed_without_seed_name
    {W : Type} `{!extensions.ClusterClient W}
    (clusterName : string) (s : core_Shoot)
    (cloudProfile : option core_CloudProfile) (seed : option core_Seed) (w : W) :
  s.(Spec).(SeedName) = None →
  extensions.SyncClusterResourceToSeed clusterName (Some s) cloudProfile seed w = (w, Ok tt).
Proof. intros Hseed. unfold extensions.SyncClusterResourceToSeed. by rewrite Hseed. Qed.

Lemma syncMutate_CloudProfile cloudProfileObj seedObj shootObj cluster :
  (extensions.syncMutate cloudProfileObj seedObj shootObj cluster).(Spec).(extensionsv1alpha1.CloudProfile)
  = match cloudProfileObj with
    | Some o => runtime.Build_RawExtension None (Some o)
    | None => cluster.(Spec).(extensionsv1alpha1.CloudProfile)
    end.
Proof. by destruct cloudProfileObj, seedObj, shootObj. Qed.

Lemma syncMutate_Seed cloudProfileObj seedObj shootObj cluster :
  (extensions.syncMutate cloudProfileObj seedObj shootObj cluster).(Spec).(extensionsv1alpha1.Seed)
  = match seedObj with
    | Some o => runtime.Build_RawExtension None (Some o)
    | None => cluster.(Spec).(extensionsv1alpha1.Seed)
    end.
Proof. by destruct cloudProfileObj, seedObj, shootObj. Qed.

Lemma syncMutate_Shoot cloudProfileObj seedObj shootObj cluster :
  (extensions.syncMutate cloudProfileObj seedObj shootObj cluster).(Spec).(extensionsv1alpha1.Shoot)
  = match shootObj with
    | Some o => runtime.Build_RawExtension None (Some o)
    | None => cluster.(Spec).(extensionsv1alpha1.Shoot)
    end.
Proof. by destruct cloudProfileObj, seedObj, shootObj. Qed.

Lemma syncMutate_meta cloudProfileObj seedObj shootObj cluster :
  (extensions.syncMutate cloudProfileObj seedObj shootObj cluster).(TypeMeta)
  = cluster.(TypeMeta) ∧
  (extensions.syncMutate cloudProfileObj seedObj shootObj cluster).(ObjectMeta)
  = cluster.(ObjectMeta).
Proof. by destruct cloudProfileObj, seedObj, shootObj. Qed.

#[local] Existing Instance extensions.memoryClient.

(** With the in-memory seed, a sync of a shoot that has a seed name writes
    the mutated resource under the cluster name. *)
Lemma SyncClusterResourceToSeed_upsert
    (store : gmap string extensionsv1alpha1.Cluster) (clusterName seedName : string)
    (s : core_Shoot) (cloudProfile : option core_CloudProfile) (seed : option core_Seed) :
  s.(Spec).(SeedName) = Some seedName →
  extensions.SyncClusterResourceToSeed clusterName (Some s) cloudProfile seed store
  = (<[clusterName :=
         extensions.syncMutate
           (extensions.withTypeMeta "CloudProfile" <$> cloudProfile)
           (extensions.withTypeMeta "Seed" <$> seed)
           (Some (extensions.withTypeMeta "Shoot" s))
           (extensions.storedOrNew clusterName store)]> store,
     Ok tt).
Proof.
  intros H. unfold extensions.SyncClusterResourceToSeed, extensions.storedOrNew.
  rewrite H. cbn.
  destruct (store !! clusterName) as [existing|]; destruct cloudProfile, seed; reflexivity.
Qed.

(** C8: [SyncClusterResourceToSeed] creates or updates the Cluster resource:
    for a shoot with a seed name the resource stored under the cluster name
    afterwards is the one stored before (or a new one of that name) with
    each of [CloudProfile], [Seed] and [Shoot] replaced by the copy of the
    argument when the argument is not nil, and kept when it is nil; its
    metadata is kept.  In every case (seed name or not, nil shoot or not) an
    embedded field whose argument is nil is the same after the call as
    before, and no other resource of the store changes. *)
Theorem SyncClusterResourceToSeed_partial_update
    (store : gmap string extensionsv1alpha1.Cluster) (clusterName : string)
    (shoot : option core_Shoot) (cloudProfile : option core_CloudProfile)
    (seed : option core_Seed) :
  let after :=
    (extensions.SyncClusterResourceToSeed clusterName shoot cloudProfile seed store).1 in
  let old := extensions.storedOrNew clusterName store in
  let new := extensions.storedOrNew clusterName after in
  (∀ s seedName,
     shoot = Some s → s.(Spec).(SeedName) = Some seedName →
     extensions.SyncClusterResourceToSeed clusterName shoot cloudProfile seed store
     = (after, Ok tt) ∧
     after !! clusterName = Some new ∧
     new.(TypeMeta) = old.(TypeMeta) ∧
     new.(ObjectMeta) = old.(ObjectMeta) ∧
     new.(Spec).(extensionsv1alpha1.CloudProfile)
     = match cloudProfile with
       | Some o =>
           runtime.Build_RawExtension None (Some (extensions.withTypeMeta "CloudProfile" o))
       | None => old.(Spec).(extensionsv1alpha1.CloudProfile)
       end ∧
     new.(Spec).(extensionsv1alpha1.Seed)
     = match seed with
       | Some o => runtime.Build_RawExtension None (Some (extensions.withTypeMeta "Seed" o))
       | None => old.(Spec).(extensionsv1alpha1.Seed)
       end ∧
     new.(Spec).(extensionsv1alpha1.Shoot)
     = runtime.Build_RawExtension None (Some (extensions.withTypeMeta "Shoot" s))) ∧
  (cloudProfile = None →
   new.(Spec).(extensionsv1alpha1.CloudProfile) = old.(Spec).(extensionsv1alpha1.CloudProfile)) ∧
  (seed = None →
   new.(Spec).(extensionsv1alpha1.Seed) = old.(Spec).(extensionsv1alpha1.Seed)) ∧
  (shoot = None →
   new.(Spec).(extensionsv1alpha1.Shoot) = old.(Spec).(extensionsv1alpha1.Shoot)) ∧
  (∀ other, other ≠ clusterName → after !! other = store !! other).
Proof.
  cbv zeta.
  destruct shoot as [s|]; [|by repeat split].
  destruct (s.(Spec).(SeedName)) as [seedName|] eqn:Hseed.
  2: { unfold extensions.SyncClusterResourceToSeed. rewrite Hseed. cbn [fst].
       split; [|by repeat split].
       intros s' seedName' [= <-] Hs. by rewrite Hseed in Hs. }
  rewrite (SyncClusterResourceToSeed_upsert _ _ _ _ _ _ Hseed). cbn [fst].
  set (old := extensions.storedOrNew clusterName store).
  set (mutated := extensions.syncMutate _ _ _ old).
  assert (extensions.storedOrNew clusterName (<[clusterName := mutated]> store) = mutated)
    as ->.
  { unfold extensions.storedOrNew. by rewrite lookup_insert_eq. }
  subst mutated. split; [|repeat apply conj].
  - intros s' seedName' [= <-] _. repeat apply conj.
    + done.
    + by rewrite lookup_insert_eq.
    + apply syncMutate_meta.
    + apply syncMutate_meta.
    + rewrite syncMutate_CloudProfile. by destruct cloudProfile.
    + rewrite syncMutate_Seed. by destruct seed.
    + by rewrite syncMutate_Shoot.
  - intros ->. by rewrite syncMutate_CloudProfile.
  - intros ->. by rewrite syncMutate_Seed.
  - done.
  - intros other Hother. by rewrite lookup_insert_ne.
Qed.

End ClusterSync.

(** C9 on a request: the client counts the requests it serves, and a sync of
    a shoot without a seed name leaves the count where it was. *)
Lemma SyncClusterResourceToSeed_without_seed_name_witness :
  @extensions.SyncClusterResourceToSeed fixture.schema nat fixture.countingClient
    "shoot--dev--a" (Some (fixture.newShoot "vsphere" None None None))
    (Some (fixture.profile "vsphere" (fixture.raw "{}"))) (Some fixture.seed) 7
  = (7, Ok tt).
Proof.
  exact (@SyncClusterResourceToSeed_without_seed_name fixture.schema nat
           fixture.countingClient "shoot--dev--a"
           (fixture.newShoot "vsphere" None None None)
           (Some (fixture.profile "vsphere" (fixture.raw "{}"))) (Some fixture.seed) 7
           eq_refl).
Defined.

(** C8 on a request: the seed holds the Cluster resource, and a sync with a
    cloud profile and a shoot but no seed object replaces the first two fields
    and keeps the stored seed field. *)
Lemma SyncClusterResourceToSeed_partial_update_witness :
  let _ := fixture.schema in
  let s := fixture.newShoot "vsphere" (Some "seed-a") None None in
  let cloudProfile := fixture.profile "vsphere" (fixture.raw "{}") in
  let store : gmap string extensionsv1alpha1.Cluster :=
    {[ "shoot--dev--a" := fixture.storedCluster ]} in
  let after :=
    (@extensions.SyncClusterResourceToSeed _ _ extensions.memoryClient
       "shoot--dev--a" (Some s) (Some cloudProfile) None store).1 in
  let new := extensions.storedOrNew "shoot--dev--a" after in
  new.(Spec).(extensionsv1alpha1.CloudProfile)
  = runtime.Build_RawExtension None (Some (extensions.withTypeMeta "CloudProfile" cloudProfile)) ∧
  new.(Spec).(extensionsv1alpha1.Seed) = runtime.Build_RawExtension (Some "{seed}") None ∧
  new.(Spec).(extensionsv1alpha1.Shoot)
  = runtime.Build_RawExtension None (Some (extensions.withTypeMeta "Shoot" s)) ∧
  new.(ObjectMeta) = fixture.meta "shoot--dev--a".
Proof.
  cbv zeta.
  destruct (@SyncClusterResourceToSeed_partial_update fixture.schema
              {[ "shoot--dev--a" := fixture.storedCluster ]} "shoot--dev--a"
              (Some (fixture.newShoot "vsphere" (Some "seed-a") None None))
              (Some (fixture.profile "vsphere" (fixture.raw "{}"))) None)
    as (Hupdate & _ & Hseed & _ & _).
  destruct (Hupdate _ _ eq_refl eq_refl) as (_ & _ & _ & Hmeta & HcloudProfile & _ & Hshoot).
  repeat apply conj.
  - exact HcloudProfile.
  - exact (Hseed eq_refl).
  - exact Hshoot.
  - exact Hmeta.
Defined.

(** ** Supplements *)

Section Supplements.
Context `{Sch : Schema}.

(** A nil shoot is dereferenced before anything else: the sync panics and the
    client is not called. *)
Lemma SyncClusterResourceToSeed_nil_shoot
    {W : Type} `{!extensions.ClusterClient W} (clusterName : string)
    (cloudProfile : option core_CloudProfile) (seed : option core_Seed) (w : W) :
  extensions.SyncClusterResourceToSeed clusterName None cloudProfile seed w
  = (w, Panic nilDereference).
Proof. reflexivity. Qed.

End Supplements.

(** * Further properties *)

(** ** Results and traces of sequences *)

Lemma result_bind {A B} (m : M A) (f : A → M B) :
  result (m ≫= f)
  = match result m with
    | Ok a => result (f a)
    | Err e => Err e
    | Panic msg => Panic msg
    end.
Proof.
  destruct m as [t [a|e|msg]]; [|done..].
  rewrite bind_ok_run. done.
Qed.

Lemma trace_bind {A B} (m : M A) (f : A → M B) :
  trace (m ≫= f)
  = trace m ++ match result m with
               | Ok a => trace (f a)
               | _ => []
               end.
Proof.
  destruct m as [t [a|e|msg]]; [|by unfold trace; cbn; rewrite app_nil_r..].
  rewrite bind_ok_run. done.
Qed.

Lemma Forall_trace_bind {A B} (P : Event → Prop) (m : M A) (f : A → M B) :
  Forall P (trace m) → (∀ a, Forall P (trace (f a))) → Forall P (trace (m ≫= f)).
Proof.
  intros Hm Hf. rewrite trace_bind. apply Forall_app. split; [done|].
  destruct (result m); [apply Hf | constructor..].
Qed.

Lemma returnIfErrors_run c errList :
  returnIfErrors c errList = ([Validate c], verdict errList).
Proof. by destruct errList. Qed.

(** ** The shoot validation and the update flow: which errors are reported *)

Section FirstErrors.
Context `{Sch : Schema} `{Dec : !Decoder} `{Utl : !Util} `{Val : !vspherevalidation}.

(** X1: [validateShoot] returns the aggregate of the first non-empty error list
    among the networking, infrastructure config, control plane config and
    workers checks, in this order, and nil when all four are empty; the checks
    after the reported one are not called. *)
Theorem validateShoot_reports_first_errors (context : validationContext) :
  let checks :=
    [ (CheckNetworking,
       ValidateNetworking context.(shoot).(Spec).(Networking) nwPath);
      (CheckInfrastructureConfig,
       ValidateInfrastructureConfig context.(infraConfig)
         (Nodes context.(shoot).(Spec).(Networking)) infraConfigPath);
      (CheckControlPlaneConfig,
       ValidateControlPlaneConfig context.(cpConfig) cpConfigPath);
      (CheckWorkers,
       ValidateWorkers context.(shoot).(Spec).(Provider).(Workers) workersPath) ] in
  validateShoot context
  = (Validate <$> calledChecks checks, verdict (firstErrors (checks.*2))).
Proof.
  cbv zeta. unfold validateShoot. rewrite !returnIfErrors_run.
  destruct (ValidateNetworking _ _) as [|e1 l1]; [|done].
  destruct (ValidateInfrastructureConfig _ _ _) as [|e2 l2]; [|done].
  destruct (ValidateControlPlaneConfig _ _) as [|e3 l3]; [|done].
  by destruct (ValidateWorkers _ _) as [|e4 l4].
Qed.

(** X2: When the contexts of the old and the new shoot are built,
    [validateShootUpdate] returns the aggregate of the first non-empty error
    list among seven checks, in this order: infrastructure config update,
    control plane config update, workers update, then networking,
    infrastructure config, control plane config and workers of the new shoot;
    it returns nil when all seven are empty, and calls no check after the
    reported one. *)
Theorem validateShootUpdate_reports_first_errors
    (oldShoot s : core_Shoot) (oldValContext valContext : validationContext)
    (t1 t2 : list Event) :
  newValidationContext oldShoot = (t1, Ok oldValContext) →
  newValidationContext s = (t2, Ok valContext) →
  let checks :=
    [ (CheckInfrastructureConfigUpdate,
       ValidateInfrastructureConfigUpdate
         oldValContext.(infraConfig) valContext.(infraConfig) infraConfigPath);
      (CheckControlPlaneConfigUpdate,
       ValidateControlPlaneConfigUpdate
         oldValContext.(cpConfig) valContext.(cpConfig) cpConfigPath);
      (CheckWorkersUpdate,
       ValidateWorkersUpdate oldShoot.(Spec).(Provider).(Workers)
         s.(Spec).(Provider).(Workers) workersPath);
      (CheckNetworking,
       ValidateNetworking valContext.(shoot).(Spec).(Networking) nwPath);
      (CheckInfrastructureConfig,
       ValidateInfrastructureConfig valContext.(infraConfig)
         (Nodes valContext.(shoot).(Spec).(Networking)) infraConfigPath);
      (CheckControlPlaneConfig,
       ValidateControlPlaneConfig valContext.(cpConfig) cpConfigPath);
      (CheckWorkers,
       ValidateWorkers valContext.(shoot).(Spec).(Provider).(Workers) workersPath) ] in
  validateShootUpdate oldShoot s
  = (t1 ++ t2 ++ (Validate <$> calledChecks checks), verdict (firstErrors (checks.*2))).
Proof.
  intros Hold Hnew. cbv zeta. unfold validateShootUpdate.
  eapply bind_ok_eq; [done|]. eapply bind_ok_eq; [done|].
  unfold validateShoot. rewrite !returnIfErrors_run.
  destruct (ValidateInfrastructureConfigUpdate _ _ _) as [|e1 l1]; [|done].
  destruct (ValidateControlPlaneConfigUpdate _ _ _) as [|e2 l2]; [|done].
  destruct (ValidateWorkersUpdate _ _ _) as [|e3 l3]; [|done].
  destruct (ValidateNetworking _ _) as [|e4 l4]; [|done].
  destruct (ValidateInfrastructureConfig _ _ _) as [|e5 l5]; [|done].
  destruct (ValidateControlPlaneConfig _ _) as [|e6 l6]; [|done].
  by destruct (ValidateWorkers _ _) as [|e7 l7].
Qed.

End FirstErrors.

(** The update flow on a request: only the control plane config changes,
    and the package refuses such a change. *)
Lemma validateShootUpdate_reports_first_errors_witness :
  @validateShootUpdate fixture.schema fixture.util fixture.validators
    (fixture.newShoot "vsphere" None (fixture.raw "{}") (fixture.raw "{}"))
    (fixture.newShoot "vsphere" None (fixture.raw "{}") (fixture.raw "{b}"))
  = ([Decode vsphere.InfrastructureConfig (Some "{}");
      Decode vsphere.ControlPlaneConfig (Some "{}");
      Decode vsphere.InfrastructureConfig (Some "{}");
      Decode vsphere.ControlPlaneConfig (Some "{b}");
      Validate CheckInfrastructureConfigUpdate;
      Validate CheckControlPlaneConfigUpdate],
     Err (Aggregate [field.Invalid cpConfigPath "{b}" "field is immutable"])).
Proof.
  exact (@validateShootUpdate_reports_first_errors fixture.schema fixture.util
           fixture.validators
           (fixture.newShoot "vsphere" None (fixture.raw "{}") (fixture.raw "{}"))
           (fixture.newShoot "vsphere" None (fixture.raw "{}") (fixture.raw "{b}"))
           _ _ _ _ eq_refl eq_refl).
Defined.

(** ** The validation context builder: when it succeeds, how it fails *)

Section ContextBuilderOutcomes.
Context `{Sch : Schema} `{Dec : !Decoder} `{Utl : !Util}.

(** X3: [newValidationContext] returns a context exactly when both provider
    configs of the shoot are given and [util.Decode] accepts the bytes of both;
    the context then holds the shoot and the two decoded objects, and
    [util.Decode] has been called twice, for the infrastructure config first. *)
Theorem newValidationContext_succeeds_iff
    (s : core_Shoot) (t : list Event) (valContext : validationContext) :
  newValidationContext s = (t, Ok valContext) ↔
  ∃ infra cp,
    s.(Spec).(Provider).(InfrastructureConfig) = Some infra ∧
    s.(Spec).(Provider).(ControlPlaneConfig) = Some cp ∧
    util_Decode_result vsphere.InfrastructureConfig infra.(Raw) = inr valContext.(infraConfig) ∧
    util_Decode_result vsphere.ControlPlaneConfig cp.(Raw) = inr valContext.(cpConfig) ∧
    valContext.(shoot) = s ∧
    t = [Decode vsphere.InfrastructureConfig infra.(Raw);
         Decode vsphere.ControlPlaneConfig cp.(Raw)].
Proof.
  split.
  - intros Hrun.
    destruct (newValidationContext_cases s)
      as [(t' & e & Herr) | (infra & cp & ic & cc & Hi & Hc & Hdi & Hdc & Hok)].
    + rewrite Herr in Hrun. discriminate.
    + rewrite Hok in Hrun. injection Hrun as <- <-. by exists infra, cp.
  - intros (infra & cp & Hi & Hc & Hdi & Hdc & Hs & ->).
    unfold newValidationContext. rewrite Hi, Hc.
    rewrite (bind_ok _ _ _ _ (DecodeInfrastructureConfig_ok _ _ _ Hdi)). cbv beta.
    rewrite (bind_ok _ _ _ _ (DecodeControlPlaneConfig_ok _ _ _ Hdc)). cbv beta.
    destruct valContext as [s' ic cc]. cbn in *. by subst s'.
Qed.

(** X4: Whatever [util.Decode] answers, an error of [newValidationContext] is one
    of four: the required-field error of either config, [cannot be decoded]
    for the infrastructure config, or the invalid-field error at
    [spec.provider.controlPlaneConfig] that carries the bytes of the control
    plane config.  The error of [util.Decode] itself is never passed on. *)
Theorem newValidationContext_errors
    (s : core_Shoot) (t : list Event) (e : error) :
  newValidationContext s = (t, Err e) →
  e = field_Error (field.Required infraConfigPath
                     "infrastructureConfig must be set for OpenStack shoots") ∨
  e = fmt_Errorf "cannot be decoded" [] ∨
  e = field_Error (field.Required cpConfigPath
                     "controlPlaneConfig must be set for OpenStack shoots") ∨
  ∃ cp, s.(Spec).(Provider).(ControlPlaneConfig) = Some cp ∧
        e = field_Error (field.Invalid cpConfigPath (bytes_string cp.(Raw))
                           "cannot be decoded").
Proof.
  unfold newValidationContext.
  destruct (s.(Spec).(Provider).(InfrastructureConfig)) as [infra|].
  2: { intros [= <- <-]. by left. }
  destruct (util_Decode_result vsphere.InfrastructureConfig infra.(Raw)) as [e'|ic] eqn:Hdi.
  { rewrite (bind_err _ _ _ _ (DecodeInfrastructureConfig_err _ _ _ Hdi)).
    intros [= <- <-]. right. by left. }
  rewrite (bind_ok _ _ _ _ (DecodeInfrastructureConfig_ok _ _ _ Hdi)). cbv beta.
  destruct (s.(Spec).(Provider).(ControlPlaneConfig)) as [cp|].
  2: { intros [= <- <-]. right. right. by left. }
  destruct (util_Decode_result vsphere.ControlPlaneConfig cp.(Raw)) as [e'|cc] eqn:Hdc.
  - rewrite (bind_err _ _ _ _ (DecodeControlPlaneConfig_err _ _ _ Hdc)).
    intros [= <- <-]. right. right. right. by exists cp.
  - rewrite (bind_ok _ _ _ _ (DecodeControlPlaneConfig_ok _ _ _ Hdc)). discriminate.
Qed.

(** The builder calls [util.Decode] for the two configs of the shoot and
    nothing else. *)
Lemma newValidationContext_trace (s : core_Shoot) :
  Forall (λ ev, readsCloudProfile ev = false ∧ ∀ c, ev ≠ Validate c)
    (trace (newValidationContext s)).
Proof.
  unfold newValidationContext.
  destruct (s.(Spec).(Provider).(InfrastructureConfig)) as [infra|]; [|constructor].
  destruct (util_Decode_result vsphere.InfrastructureConfig infra.(Raw)) as [e'|ic] eqn:Hdi.
  { rewrite (bind_err _ _ _ _ (DecodeInfrastructureConfig_err _ _ _ Hdi)).
    by repeat constructor. }
  rewrite (bind_ok _ _ _ _ (DecodeInfrastructureConfig_ok _ _ _ Hdi)). cbv beta.
  destruct (s.(Spec).(Provider).(ControlPlaneConfig)) as [cp|]; [|by repeat constructor].
  destruct (util_Decode_result vsphere.ControlPlaneConfig cp.(Raw)) as [e'|cc] eqn:Hdc.
  - rewrite (bind_err _ _ _ _ (DecodeControlPlaneConfig_err _ _ _ Hdc)).
    by repeat constructor.
  - rewrite (bind_ok _ _ _ _ (DecodeControlPlaneConfig_ok _ _ _ Hdc)).
    by repeat constructor.
Qed.

End ContextBuilderOutcomes.

(** An error of the builder on a request: the bytes of the control plane
    config are no JSON object. *)
Lemma newValidationContext_errors_witness :
  field_Error (field.Invalid cpConfigPath "garbage" "cannot be decoded")
  = field_Error (field.Required infraConfigPath
                   "infrastructureConfig must be set for OpenStack shoots") ∨
  field_Error (field.Invalid cpConfigPath "garbage" "cannot be decoded")
  = fmt_Errorf "cannot be decoded" [] ∨
  field_Error (field.Invalid cpConfigPath "garbage" "cannot be decoded")
  = field_Error (field.Required cpConfigPath
                   "controlPlaneConfig must be set for OpenStack shoots") ∨
  ∃ cp, fixture.raw "garbage" = Some cp ∧
        field_Error (field.Invalid cpConfigPath "garbage" "cannot be decoded")
        = field_Error (field.Invalid cpConfigPath (bytes_string cp.(Raw))
                         "cannot be decoded").
Proof.
  exact (@newValidationContext_errors fixture.schema fixture.util
           (fixture.newShoot "vsphere" None (fixture.raw "{}") (fixture.raw "garbage"))
           [Decode vsphere.InfrastructureConfig (Some "{}");
            Decode vsphere.ControlPlaneConfig (Some "garbage")]
           (field_Error (field.Invalid cpConfigPath "garbage" "cannot be decoded"))
           eq_refl).
Defined.

(** ** The update flow and the cloud profile *)

Section UpdateFlow.
Context `{Sch : Schema} `{Dec : !Decoder} `{Utl : !Util} `{Val : !vspherevalidation}.

Lemma returnIfErrors_trace c errList :
  Forall (λ ev, readsCloudProfile ev = false) (trace (returnIfErrors c errList)).
Proof. rewrite returnIfErrors_run. by repeat constructor. Qed.

Lemma validateShoot_trace (context : validationContext) :
  Forall (λ ev, readsCloudProfile ev = false) (trace (validateShoot context)).
Proof.
  unfold validateShoot.
  do 3 (apply Forall_trace_bind; [apply returnIfErrors_trace | intros _]).
  apply returnIfErrors_trace.
Qed.

(** X5: [validateShootUpdate] never reads the cloud profile: whatever the two
    shoots are, it neither asks the client for it nor decodes a cloud profile
    config. *)
Theorem validateShootUpdate_never_reads_cloud_profile (oldShoot s : core_Shoot) :
  Forall (λ ev, readsCloudProfile ev = false) (trace (validateShootUpdate oldShoot s)).
Proof.
  unfold validateShootUpdate.
  apply Forall_trace_bind.
  { eapply Forall_impl; [apply newValidationContext_trace | by intros ev [? _]]. }
  intros oldValContext. apply Forall_trace_bind.
  { eapply Forall_impl; [apply newValidationContext_trace | by intros ev [? _]]. }
  intros valContext.
  do 3 (apply Forall_trace_bind; [apply returnIfErrors_trace | intros _]).
  apply validateShoot_trace.
Qed.

End UpdateFlow.

(** ** The create flow and the cloud profile *)

Section CreateFlow.
Context `{Sch : Schema} `{Dec : !Decoder} `{Utl : !Util} `{Cli : !Client} `{Val : !vspherevalidation}.

Lemma validateInfraAgainstCloudProfile_run s infraConfig fldPath :
  validateInfraAgainstCloudProfile s infraConfig fldPath
  = match readCloudProfile s with
    | (t, inl e) => (t, Err e)
    | (t, inr (cloudProfile, cloudProfileConfig)) =>
        (t ++ [Validate CheckInfrastructureConfigAgainstCloudProfile],
         verdict (ValidateInfrastructureConfigAgainstCloudProfile
                    infraConfig s.(Spec).(Region) cloudProfileConfig fldPath))
    end.
Proof.
  unfold validateInfraAgainstCloudProfile, readCloudProfile.
  destruct (client_Get s.(Spec).(CloudProfileName)) as [e|cloudProfile] eqn:Hget.
  { by rewrite (bind_err _ _ _ _ (clientGet_err _ _ Hget)). }
  rewrite (bind_ok _ _ _ _ (clientGet_ok _ _ Hget)). cbv beta.
  destruct (cloudProfile.(Spec).(ProviderConfig)) as [providerConfig|]; [|done].
  destruct (util_Decode_result vsphere.CloudProfileConfig providerConfig.(Raw))
    as [e|cloudProfileConfig] eqn:Hd.
  - by rewrite (DecodeCloudProfileConfig_err _ _ _ Hd).
  - rewrite (DecodeCloudProfileConfig_ok _ _ _ Hd).
    change (onError ?f (?t, Ok ?a)) with (t, @Ok _ a).
    rewrite bind_ok_run, returnIfErrors_run. done.
Qed.

Lemma validateCpAgainstCloudProfile_run s cpConfig fldPath :
  validateCpAgainstCloudProfile s cpConfig fldPath
  = match readCloudProfile s with
    | (t, inl e) => (t, Err e)
    | (t, inr (cloudProfile, cloudProfileConfig)) =>
        (t ++ [Validate CheckControlPlaneConfigAgainstCloudProfile],
         verdict (ValidateControlPlaneConfigAgainstCloudProfile
                    cpConfig s.(Spec).(Region) cloudProfile cloudProfileConfig fldPath))
    end.
Proof.
  unfold validateCpAgainstCloudProfile, readCloudProfile.
  destruct (client_Get s.(Spec).(CloudProfileName)) as [e|cloudProfile] eqn:Hget.
  { by rewrite (bind_err _ _ _ _ (clientGet_err _ _ Hget)). }
  rewrite (bind_ok _ _ _ _ (clientGet_ok _ _ Hget)). cbv beta.
  destruct (cloudProfile.(Spec).(ProviderConfig)) as [providerConfig|]; [|done].
  destruct (util_Decode_result vsphere.CloudProfileConfig providerConfig.(Raw))
    as [e|cloudProfileConfig] eqn:Hd.
  - by rewrite (DecodeCloudProfileConfig_err _ _ _ Hd).
  - rewrite (DecodeCloudProfileConfig_ok _ _ _ Hd).
    change (onError ?f (?t, Ok ?a)) with (t, @Ok _ a).
    rewrite bind_ok_run, returnIfErrors_run. done.
Qed.

(** X7: Failures to read the cloud profile, in both checks against it: an error
    of the client is returned as it is, after the one [Get]; when the bytes of
    the profile's provider config do not decode, the error is [an error
    occurred while reading the cloud profile %q: %v] with the profile's name
    and the invalid-field error at [spec.providerConfig] that carries the
    bytes, and no validation is called. *)
Theorem cloud_profile_read_failures
    (s : core_Shoot) (infraConfig : obj vsphere.InfrastructureConfig)
    (cpConfig : obj vsphere.ControlPlaneConfig) (fldPath : field.Path) :
  (∀ e, client_Get s.(Spec).(CloudProfileName) = inl e →
     validateInfraAgainstCloudProfile s infraConfig fldPath
     = ([Get s.(Spec).(CloudProfileName)], Err e) ∧
     validateCpAgainstCloudProfile s cpConfig fldPath
     = ([Get s.(Spec).(CloudProfileName)], Err e)) ∧
  (∀ cloudProfile providerConfig e,
     client_Get s.(Spec).(CloudProfileName) = inr cloudProfile →
     cloudProfile.(Spec).(ProviderConfig) = Some providerConfig →
     util_Decode_result vsphere.CloudProfileConfig providerConfig.(Raw) = inl e →
     let failure :=
       ([Get s.(Spec).(CloudProfileName);
         Decode vsphere.CloudProfileConfig providerConfig.(Raw)],
        Err (fmt_Errorf "an error occurred while reading the cloud profile %q: %v"
               [argString cloudProfile.(ObjectMeta).(Name);
                argError
                  (field_Error
                     (field.Invalid providerConfigPath
                        (bytes_string providerConfig.(Raw)) "cannot be decoded"))])) in
     validateInfraAgainstCloudProfile s infraConfig fldPath = failure ∧
     validateCpAgainstCloudProfile s cpConfig fldPath = failure).
Proof.
  split.
  - intros e Hget.
    rewrite validateInfraAgainstCloudProfile_run, validateCpAgainstCloudProfile_run.
    unfold readCloudProfile. by rewrite Hget.
  - intros cloudProfile providerConfig e Hget Hpc Hd. cbv zeta.
    rewrite validateInfraAgainstCloudProfile_run, validateCpAgainstCloudProfile_run.
    unfold readCloudProfile. by rewrite Hget, Hpc, Hd.
Qed.

End CreateFlow.

(** ** The create flow, step by step *)

Section CreateFlowSteps.
Context `{Sch : Schema} `{Dec : !Decoder} `{Utl : !Util} `{Cli : !Client} `{Val : !vspherevalidation}.

(** C3: [validateShootCreation] runs its steps in order and stops at the
    first that fails.  An error of the context builder is returned as it is
    and nothing else is called.  Otherwise the cloud profile is read for the
    infrastructure check: a failure to read it is returned; a non-empty error
    list of the check is returned as its aggregate, and the control plane
    check and the shoot validation are not called.  Otherwise the control plane
    check against the cloud profile runs (it reads the profile again): its
    non-empty error list is returned as its aggregate and the shoot validation
    is not called.  Otherwise the four checks of the shoot validation run in
    order up to the first with a non-empty error list, whose aggregate is
    returned; the result is nil only when every list was empty. *)
Theorem validateShootCreation_fails_fast (s : core_Shoot) :
  validateShootCreation s
  = match newValidationContext s with
    | (t1, Err e) => (t1, Err e)
    | (t1, Panic msg) => (t1, Panic msg)
    | (t1, Ok valContext) =>
        match readCloudProfile s with
        | (t2, inl e) => (t1 ++ t2, Err e)
        | (t2, inr (cloudProfile, cloudProfileConfig)) =>
            match ValidateInfrastructureConfigAgainstCloudProfile
                    valContext.(infraConfig) s.(Spec).(Region) cloudProfileConfig
                    infraConfigPath with
            | (_ :: _) as infraErrs =>
                (t1 ++ t2 ++ [Validate CheckInfrastructureConfigAgainstCloudProfile],
                 Err (Aggregate infraErrs))
            | [] =>
                match ValidateControlPlaneConfigAgainstCloudProfile
                        valContext.(cpConfig) s.(Spec).(Region) cloudProfile
                        cloudProfileConfig cpConfigPath with
                | (_ :: _) as cpErrs =>
                    (t1 ++ t2 ++ [Validate CheckInfrastructureConfigAgainstCloudProfile]
                        ++ t2 ++ [Validate CheckControlPlaneConfigAgainstCloudProfile],
                     Err (Aggregate cpErrs))
                | [] =>
                    let checks :=
                      [ (CheckNetworking,
                         ValidateNetworking valContext.(shoot).(Spec).(Networking) nwPath);
                        (CheckInfrastructureConfig,
                         ValidateInfrastructureConfig valContext.(infraConfig)
                           (Nodes valContext.(shoot).(Spec).(Networking)) infraConfigPath);
                        (CheckControlPlaneConfig,
                         ValidateControlPlaneConfig valContext.(cpConfig) cpConfigPath);
                        (CheckWorkers,
                         ValidateWorkers valContext.(shoot).(Spec).(Provider).(Workers)
                           workersPath) ] in
                    (t1 ++ t2 ++ [Validate CheckInfrastructureConfigAgainstCloudProfile]
                        ++ t2 ++ [Validate CheckControlPlaneConfigAgainstCloudProfile]
                        ++ (Validate <$> calledChecks checks),
                     verdict (firstErrors (checks.*2)))
                end
            end
        end
    end.
Proof.
  unfold validateShootCreation.
  destruct (newValidationContext s) as [t1 [valContext|e|msg]]; [|done..].
  rewrite bind_ok_run. cbv beta.
  rewrite validateInfraAgainstCloudProfile_run, validateCpAgainstCloudProfile_run.
  destruct (readCloudProfile s) as [t2 [e|[cloudProfile cloudProfileConfig]]]; [done|].
  destruct (ValidateInfrastructureConfigAgainstCloudProfile _ _ _ _) as [|e1 l1]; [|done].
  cbn [verdict]. rewrite bind_ok_run. cbv beta. unfold trace, result. cbn [fst snd].
  destruct (ValidateControlPlaneConfigAgainstCloudProfile _ _ _ _ _) as [|e2 l2].
  2: { cbn [verdict]. rewrite bind_err_run. cbn [fst snd]. by rewrite <- !app_assoc. }
  cbn [verdict]. rewrite bind_ok_run. cbv beta zeta. unfold trace, result. cbn [fst snd].
  unfold validateShoot. rewrite !returnIfErrors_run. rewrite <- !app_assoc.
  destruct (ValidateNetworking _ _) as [|e3 l3]; [|done].
  destruct (ValidateInfrastructureConfig _ _ _) as [|e4 l4]; [|done].
  destruct (ValidateControlPlaneConfig _ _) as [|e5 l5]; [|done].
  by destruct (ValidateWorkers _ _) as [|e6 l6].
Qed.

End CreateFlowSteps.

(** C3 on a request: the context is built and the infrastructure check
    against the cloud profile passes; the control plane check against the
    profile finds the control plane config not to be the one the profile
    names, its error list is returned as an aggregate, and the shoot
    validation is not called. *)
Lemma validateShootCreation_fails_fast_witness :
  @validateShootCreation fixture.schema fixture.util fixture.client fixture.profileValidators
    (fixture.newShoot "vsphere" None (fixture.raw "{}") (fixture.raw "{b}"))
  = ([Decode vsphere.InfrastructureConfig (Some "{}");
      Decode vsphere.ControlPlaneConfig (Some "{b}");
      Get "vsphere";
      Decode vsphere.CloudProfileConfig (Some "{}");
      Validate CheckInfrastructureConfigAgainstCloudProfile;
      Get "vsphere";
      Decode vsphere.CloudProfileConfig (Some "{}");
      Validate CheckControlPlaneConfigAgainstCloudProfile],
     Err (Aggregate [field.Invalid cpConfigPath "{b}" "not defined in cloud profile"])).
Proof.
  exact (@validateShootCreation_fails_fast fixture.schema fixture.util fixture.client
           fixture.profileValidators
           (fixture.newShoot "vsphere" None (fixture.raw "{}") (fixture.raw "{b}"))).
Defined.

Section CreateFlowOutcomes.
Context `{Sch : Schema} `{Dec : !Decoder} `{Utl : !Util} `{Cli : !Client} `{Val : !vspherevalidation}.

Lemma newValidationContext_run (s : core_Shoot) :
  newValidationContext s
  = match s.(Spec).(Provider).(InfrastructureConfig) with
    | None =>
        ([], Err (field_Error (field.Required infraConfigPath
                                 "infrastructureConfig must be set for OpenStack shoots")))
    | Some infra =>
        match util_Decode_result vsphere.InfrastructureConfig infra.(Raw) with
        | inl _ =>
            ([Decode vsphere.InfrastructureConfig infra.(Raw)],
             Err (fmt_Errorf "cannot be decoded" []))
        | inr infraConfig =>
            match s.(Spec).(Provider).(ControlPlaneConfig) with
            | None =>
                ([Decode vsphere.InfrastructureConfig infra.(Raw)],
                 Err (field_Error (field.Required cpConfigPath
                                     "controlPlaneConfig must be set for OpenStack shoots")))
            | Some cp =>
                match util_Decode_result vsphere.ControlPlaneConfig cp.(Raw) with
                | inl _ =>
                    ([Decode vsphere.InfrastructureConfig infra.(Raw);
                      Decode vsphere.ControlPlaneConfig cp.(Raw)],
                     Err (field_Error (field.Invalid cpConfigPath (bytes_string cp.(Raw))
                                         "cannot be decoded")))
                | inr cpConfig =>
                    ([Decode vsphere.InfrastructureConfig infra.(Raw);
                      Decode vsphere.ControlPlaneConfig cp.(Raw)],
                     Ok {| shoot := s; infraConfig := infraConfig; cpConfig := cpConfig |})
                end
            end
        end
    end.
Proof.
  unfold newValidationContext.
  destruct (s.(Spec).(Provider).(InfrastructureConfig)) as [infra|]; [|done].
  destruct (util_Decode_result vsphere.InfrastructureConfig infra.(Raw)) as [e|ic] eqn:Hdi.
  { by rewrite (bind_err _ _ _ _ (DecodeInfrastructureConfig_err _ _ _ Hdi)). }
  rewrite (bind_ok _ _ _ _ (DecodeInfrastructureConfig_ok _ _ _ Hdi)). cbv beta.
  destruct (s.(Spec).(Provider).(ControlPlaneConfig)) as [cp|]; [|done].
  destruct (util_Decode_result vsphere.ControlPlaneConfig cp.(Raw)) as [e|cc] eqn:Hdc.
  - by rewrite (bind_err _ _ _ _ (DecodeControlPlaneConfig_err _ _ _ Hdc)).
  - by rewrite (bind_ok _ _ _ _ (DecodeControlPlaneConfig_ok _ _ _ Hdc)).
Qed.

Lemma readCloudProfile_ok s t cloudProfile cloudProfileConfig :
  readCloudProfile s = (t, inr (cloudProfile, cloudProfileConfig)) →
  client_Get s.(Spec).(CloudProfileName) = inr cloudProfile ∧
  ∃ providerConfig,
    cloudProfile.(Spec).(ProviderConfig) = Some providerConfig ∧
    util_Decode_result vsphere.CloudProfileConfig providerConfig.(Raw) = inr cloudProfileConfig ∧
    t = [Get s.(Spec).(CloudProfileName);
         Decode vsphere.CloudProfileConfig providerConfig.(Raw)].
Proof.
  unfold readCloudProfile.
  destruct (client_Get s.(Spec).(CloudProfileName)) as [e|p] eqn:Hget; [done|].
  destruct (p.(Spec).(ProviderConfig)) as [providerConfig|] eqn:Hpc; [|done].
  destruct (util_Decode_result vsphere.CloudProfileConfig providerConfig.(Raw))
    as [e|cfg] eqn:Hd; [done|].
  intros [= <- <- <-]. split; [done|]. by exists providerConfig.
Qed.

(** X6: When [validateShootCreation] accepts a shoot, it has decoded the two
    configs of the shoot, then fetched the cloud profile and decoded its
    provider config once for each of the two checks against it (two [Get]s of
    the same name and, the client answering both alike, two decodes of the
    same bytes), and then called the four checks of the shoot, in this
    order. *)
Theorem validateShootCreation_accepts_after (s : core_Shoot) (t : list Event) :
  validateShootCreation s = (t, Ok tt) →
  ∃ infra cp cloudProfile providerConfig,
    s.(Spec).(Provider).(InfrastructureConfig) = Some infra ∧
    s.(Spec).(Provider).(ControlPlaneConfig) = Some cp ∧
    client_Get s.(Spec).(CloudProfileName) = inr cloudProfile ∧
    cloudProfile.(Spec).(ProviderConfig) = Some providerConfig ∧
    t = [Decode vsphere.InfrastructureConfig infra.(Raw);
         Decode vsphere.ControlPlaneConfig cp.(Raw);
         Get s.(Spec).(CloudProfileName);
         Decode vsphere.CloudProfileConfig providerConfig.(Raw);
         Validate CheckInfrastructureConfigAgainstCloudProfile;
         Get s.(Spec).(CloudProfileName);
         Decode vsphere.CloudProfileConfig providerConfig.(Raw);
         Validate CheckControlPlaneConfigAgainstCloudProfile;
         Validate CheckNetworking;
         Validate CheckInfrastructureConfig;
         Validate CheckControlPlaneConfig;
         Validate CheckWorkers].
Proof.
  intros Hrun. unfold validateShootCreation in Hrun.
  destruct (newValidationContext_cases s)
    as [(t' & e & Herr) | (infra & cp & ic & cc & Hi & Hc & Hdi & Hdc & Hok)].
  { by rewrite Herr in Hrun. }
  rewrite Hok, bind_ok_run in Hrun. cbv beta in Hrun. cbn [infraConfig cpConfig] in Hrun.
  rewrite validateInfraAgainstCloudProfile_run in Hrun.
  destruct (readCloudProfile s) as [tr [e|[cloudProfile cfg]]] eqn:Hread;
    cbv beta iota in Hrun.
  { rewrite bind_err_run in Hrun; unfold result in Hrun; cbn [snd] in Hrun; discriminate. }
  destruct (readCloudProfile_ok _ _ _ _ Hread) as (Hget & providerConfig & Hpc & Hd & ->).
  destruct (ValidateInfrastructureConfigAgainstCloudProfile _ _ _ _) as [|e1 l1];
    [|cbn [verdict] in Hrun; rewrite bind_err_run in Hrun; unfold result in Hrun;
      cbn [snd] in Hrun; discriminate].
  cbn [verdict] in Hrun. rewrite bind_ok_run in Hrun. cbv beta in Hrun.
  rewrite validateCpAgainstCloudProfile_run, Hread in Hrun. cbv beta iota in Hrun.
  destruct (ValidateControlPlaneConfigAgainstCloudProfile _ _ _ _ _) as [|e2 l2];
    [|cbn [verdict] in Hrun; rewrite bind_err_run in Hrun; unfold result in Hrun;
      cbn [snd] in Hrun; discriminate].
  cbn [verdict] in Hrun. rewrite bind_ok_run in Hrun. cbv beta in Hrun.
  unfold validateShoot in Hrun. rewrite !returnIfErrors_run in Hrun.
  exists infra, cp, cloudProfile, providerConfig. repeat (split; [done|]).
  destruct (ValidateNetworking _ _) as [|e3 l3]; [|done].
  destruct (ValidateInfrastructureConfig _ _ _) as [|e4 l4]; [|done].
  destruct (ValidateControlPlaneConfig _ _) as [|e5 l5]; [|done].
  destruct (ValidateWorkers _ _) as [|e6 l6]; [|done].
  by injection Hrun as <-.
Qed.

(** X8: With the infrastructure validators of this repository, what a decodable
    infrastructure config holds has no influence on the create validation:
    two shoots that differ only in their infrastructure config, both of
    which decode, get the same result. *)
Theorem validateShootCreation_ignores_infrastructure_contents
    (s : core_Shoot) (infra1 infra2 : core_ProviderConfig)
    (infraConfig1 infraConfig2 : obj vsphere.InfrastructureConfig) :
  infrastructureFromSource Val →
  util_Decode_result vsphere.InfrastructureConfig infra1.(Raw) = inr infraConfig1 →
  util_Decode_result vsphere.InfrastructureConfig infra2.(Raw) = inr infraConfig2 →
  result (validateShootCreation (withInfrastructureConfig (Some infra1) s))
  = result (validateShootCreation (withInfrastructureConfig (Some infra2) s)).
Proof.
  intros (Hcheck & _ & Hprofile) Hd1 Hd2.
  assert (∀ infra decoded,
            util_Decode_result vsphere.InfrastructureConfig infra.(Raw) = inr decoded →
            result (validateShootCreation (withInfrastructureConfig (Some infra) s))
            = match s.(Spec).(Provider).(ControlPlaneConfig) with
              | None =>
                  Err (field_Error (field.Required cpConfigPath
                                      "controlPlaneConfig must be set for OpenStack shoots"))
              | Some cp =>
                  match util_Decode_result vsphere.ControlPlaneConfig cp.(Raw) with
                  | inl _ =>
                      Err (field_Error (field.Invalid cpConfigPath (bytes_string cp.(Raw))
                                          "cannot be decoded"))
                  | inr cpConfig =>
                      match readCloudProfile s with
                      | (_, inl e) => Err e
                      | (_, inr (cloudProfile, cloudProfileConfig)) =>
                          verdict (firstErrors
                            [ValidateControlPlaneConfigAgainstCloudProfile cpConfig
                               s.(Spec).(Region) cloudProfile cloudProfileConfig cpConfigPath;
                             ValidateNetworking s.(Spec).(Networking) nwPath;
                             ValidateControlPlaneConfig cpConfig cpConfigPath;
                             ValidateWorkers s.(Spec).(Provider).(Workers) workersPath])
                      end
                  end
              end) as Hresult.
  { intros infra decoded Hd.
    unfold validateShootCreation. rewrite newValidationContext_run.
    cbn [withInfrastructureConfig Spec Provider InfrastructureConfig ControlPlaneConfig].
    rewrite Hd.
    destruct (s.(Spec).(Provider).(ControlPlaneConfig)) as [cp|]; [|done].
    destruct (util_Decode_result vsphere.ControlPlaneConfig cp.(Raw)) as [e|cc]; [done|].
    rewrite bind_ok_run. cbv beta. unfold result at 1. cbn [snd infraConfig cpConfig].
    rewrite result_bind, validateInfraAgainstCloudProfile_run.
    change (readCloudProfile (withInfrastructureConfig (Some infra) s))
      with (readCloudProfile s).
    destruct (readCloudProfile s) as [tr [e|[cloudProfile cfg]]] eqn:Hread; [done|].
    cbv beta iota. unfold result at 1. cbn [snd]. rewrite Hprofile. cbn [verdict].
    rewrite result_bind, validateCpAgainstCloudProfile_run.
    change (readCloudProfile (withInfrastructureConfig (Some infra) s))
      with (readCloudProfile s).
    rewrite Hread. cbv beta iota. unfold result at 1. cbn [snd].
    change (Region (Spec (withInfrastructureConfig (Some infra) s))) with (Region (Spec s)).
    destruct (ValidateControlPlaneConfigAgainstCloudProfile _ _ _ _ _) as [|e2 l2]; [|done].
    cbn [verdict firstErrors].
    unfold validateShoot. rewrite !returnIfErrors_run. rewrite Hcheck.
    cbn [shoot infraConfig cpConfig withInfrastructureConfig Spec Provider Networking Workers].
    destruct (ValidateNetworking _ _) as [|e3 l3]; [|done].
    destruct (ValidateControlPlaneConfig _ _) as [|e5 l5]; [|done].
    by destruct (ValidateWorkers _ _) as [|e6 l6]. }
  by rewrite (Hresult _ _ Hd1), (Hresult _ _ Hd2).
Qed.

End CreateFlowOutcomes.

(** An accepted request: the cloud profile [vsphere] is read twice. *)
Lemma validateShootCreation_accepts_after_witness :
  let s := fixture.newShoot "vsphere" None (fixture.raw "{}") (fixture.raw "{}") in
  ∃ infra cp cloudProfile providerConfig,
    s.(Spec).(Provider).(InfrastructureConfig) = Some infra ∧
    s.(Spec).(Provider).(ControlPlaneConfig) = Some cp ∧
    @client_Get _ fixture.client "vsphere" = inr cloudProfile ∧
    cloudProfile.(Spec).(ProviderConfig) = Some providerConfig ∧
    [Decode vsphere.InfrastructureConfig (Some "{}");
     Decode vsphere.ControlPlaneConfig (Some "{}");
     Get "vsphere"; Decode vsphere.CloudProfileConfig (Some "{}");
     Validate CheckInfrastructureConfigAgainstCloudProfile;
     Get "vsphere"; Decode vsphere.CloudProfileConfig (Some "{}");
     Validate CheckControlPlaneConfigAgainstCloudProfile;
     Validate CheckNetworking; Validate CheckInfrastructureConfig;
     Validate CheckControlPlaneConfig; Validate CheckWorkers]
    = [Decode vsphere.InfrastructureConfig infra.(Raw);
       Decode vsphere.ControlPlaneConfig cp.(Raw);
       Get "vsphere";
       Decode vsphere.CloudProfileConfig providerConfig.(Raw);
       Validate CheckInfrastructureConfigAgainstCloudProfile;
       Get "vsphere";
       Decode vsphere.CloudProfileConfig providerConfig.(Raw);
       Validate CheckControlPlaneConfigAgainstCloudProfile;
       Validate CheckNetworking;
       Validate CheckInfrastructureConfig;
       Validate CheckControlPlaneConfig;
       Validate CheckWorkers].
Proof.
  exact (@validateShootCreation_accepts_after fixture.schema fixture.util fixture.client
           fixture.validators
           (fixture.newShoot "vsphere" None (fixture.raw "{}") (fixture.raw "{}"))
           _ eq_refl).
Defined.

(** Read failures on two requests: a cloud profile that does not exist, and
    one whose provider config does not decode. *)
Lemma cloud_profile_read_failures_witness :
  @validateInfraAgainstCloudProfile fixture.schema fixture.util fixture.brokenClient
    fixture.validators
    (fixture.newShoot "vsphere" None (fixture.raw "{}") (fixture.raw "{}")) "{}"
    infraConfigPath
  = ([Get "vsphere"], Err (external "client" "cloudprofiles.core.gardener.cloud not found")) ∧
  @validateCpAgainstCloudProfile fixture.schema fixture.util fixture.brokenClient
    fixture.validators
    (fixture.newShoot "broken" None (fixture.raw "{}") (fixture.raw "{}")) "{}"
    cpConfigPath
  = ([Get "broken"; Decode vsphere.CloudProfileConfig (Some "garbage")],
     Err (fmt_Errorf "an error occurred while reading the cloud profile %q: %v"
            [argString "broken";
             argError (field_Error
                         (field.Invalid providerConfigPath "garbage" "cannot be decoded"))])).
Proof.
  split.
  - exact (proj1 (proj1 (@cloud_profile_read_failures fixture.schema fixture.util
                           fixture.brokenClient fixture.validators
                           (fixture.newShoot "vsphere" None (fixture.raw "{}")
                              (fixture.raw "{}"))
                           "{}" "{}" infraConfigPath) _ eq_refl)).
  - exact (proj2 (proj2 (@cloud_profile_read_failures fixture.schema fixture.util
                           fixture.brokenClient fixture.validators
                           (fixture.newShoot "broken" None (fixture.raw "{}")
                              (fixture.raw "{}"))
                           "{}" "{}" cpConfigPath)
                    (fixture.profile "broken" (fixture.raw "garbage"))
                    {| Raw := Some "garbage" |}
                    (external "decoder" "couldn't get version/kind; json parse error")
                    eq_refl eq_refl eq_refl)).
Defined.

(** Two requests that differ in the infrastructure config only. *)
Lemma validateShootCreation_ignores_infrastructure_contents_witness :
  let s := fixture.newShoot "vsphere" None None (fixture.raw "{}") in
  result (@validateShootCreation fixture.schema fixture.util fixture.client
            fixture.validators
            (withInfrastructureConfig (fixture.raw "{networks: a}") s))
  = result (@validateShootCreation fixture.schema fixture.util fixture.client
              fixture.validators
              (withInfrastructureConfig (fixture.raw "{networks: b}") s)).
Proof.
  refine (@validateShootCreation_ignores_infrastructure_contents fixture.schema
            fixture.util fixture.client fixture.validators
            (fixture.newShoot "vsphere" None None (fixture.raw "{}"))
            {| Raw := Some "{networks: a}" |} {| Raw := Some "{networks: b}" |}
            "{networks: a}" "{networks: b}" _ eq_refl eq_refl).
  repeat split.
Defined.

(** ** Package extensions: repeated synchronisation *)

Section ClusterSyncAgain.
Context `{Sch : Schema}.

#[local] Existing Instance extensions.memoryClient.

(** X9: The function handed to [CreateOrUpdate] keeps the metadata of the object
    (so its name, by which the object is stored, is never changed) and is
    idempotent: applied to its own result it changes nothing. *)
Theorem syncMutate_keeps_metadata_and_is_idempotent
    (cloudProfileObj : option core_CloudProfile) (seedObj : option core_Seed)
    (shootObj : option core_Shoot) (cluster : extensionsv1alpha1.Cluster) :
  let mutated := extensions.syncMutate cloudProfileObj seedObj shootObj cluster in
  mutated.(TypeMeta) = cluster.(TypeMeta) ∧
  mutated.(ObjectMeta) = cluster.(ObjectMeta) ∧
  extensions.syncMutate cloudProfileObj seedObj shootObj mutated = mutated.
Proof. by destruct cloudProfileObj, seedObj, shootObj. Qed.

Lemma storedOrNew_insert (store : gmap string extensionsv1alpha1.Cluster) name cluster :
  extensions.storedOrNew name (<[name := cluster]> store) = cluster.
Proof. unfold extensions.storedOrNew. by rewrite lookup_insert_eq. Qed.

Lemma syncMutate_twice cloudProfileObj seedObj shootObj (cluster : extensionsv1alpha1.Cluster) :
  extensions.syncMutate cloudProfileObj seedObj shootObj
    (extensions.syncMutate cloudProfileObj seedObj shootObj cluster)
  = extensions.syncMutate cloudProfileObj seedObj shootObj cluster.
Proof. by destruct cloudProfileObj, seedObj, shootObj. Qed.

(** X10: On the in-memory seed, synchronising twice with the same arguments leaves
    the store and the result of the first synchronisation: whatever the
    arguments are (nil shoot, no seed name, or an upsert). *)
Theorem SyncClusterResourceToSeed_idempotent
    (store : gmap string extensionsv1alpha1.Cluster) (clusterName : string)
    (shoot : option core_Shoot) (cloudProfile : option core_CloudProfile)
    (seed : option core_Seed) :
  let once := extensions.SyncClusterResourceToSeed clusterName shoot cloudProfile seed store in
  extensions.SyncClusterResourceToSeed clusterName shoot cloudProfile seed once.1 = once.
Proof.
  cbv zeta. destruct shoot as [s|]; [|done].
  destruct (s.(Spec).(SeedName)) as [seedName|] eqn:Hseed.
  2: { unfold extensions.SyncClusterResourceToSeed. by rewrite Hseed. }
  rewrite !(SyncClusterResourceToSeed_upsert _ _ _ _ _ _ Hseed). cbn [fst].
  by rewrite storedOrNew_insert, syncMutate_twice, insert_insert_eq.
Qed.

(** X11: On the in-memory seed, after two synchronisations of shoots that have a
    seed name, each of the three fields holds the copy of the latest non-nil
    argument given for it, and what was stored before when both arguments
    were nil: a later call with a nil cloud profile or seed does not erase
    what an earlier call stored. *)
Theorem SyncClusterResourceToSeed_twice
    (store : gmap string extensionsv1alpha1.Cluster) (clusterName : string)
    (s1 s2 : core_Shoot) (seedName1 seedName2 : string)
    (cloudProfile1 cloudProfile2 : option core_CloudProfile)
    (seed1 seed2 : option core_Seed) :
  s1.(Spec).(SeedName) = Some seedName1 →
  s2.(Spec).(SeedName) = Some seedName2 →
  let first :=
    (extensions.SyncClusterResourceToSeed clusterName (Some s1) cloudProfile1 seed1 store).1 in
  let second :=
    (extensions.SyncClusterResourceToSeed clusterName (Some s2) cloudProfile2 seed2 first).1 in
  let old := extensions.storedOrNew clusterName store in
  let new := extensions.storedOrNew clusterName second in
  second !! clusterName = Some new ∧
  new.(Spec).(extensionsv1alpha1.CloudProfile)
  = match cloudProfile2, cloudProfile1 with
    | Some o, _ | None, Some o =>
        runtime.Build_RawExtension None (Some (extensions.withTypeMeta "CloudProfile" o))
    | None, None => old.(Spec).(extensionsv1alpha1.CloudProfile)
    end ∧
  new.(Spec).(extensionsv1alpha1.Seed)
  = match seed2, seed1 with
    | Some o, _ | None, Some o =>
        runtime.Build_RawExtension None (Some (extensions.withTypeMeta "Seed" o))
    | None, None => old.(Spec).(extensionsv1alpha1.Seed)
    end ∧
  new.(Spec).(extensionsv1alpha1.Shoot)
  = runtime.Build_RawExtension None (Some (extensions.withTypeMeta "Shoot" s2)) ∧
  ∀ other, other ≠ clusterName → second !! other = store !! other.
Proof.
  intros Hseed1 Hseed2. cbv zeta.
  rewrite (SyncClusterResourceToSeed_upsert _ _ _ _ _ _ Hseed1). cbn [fst].
  rewrite (SyncClusterResourceToSeed_upsert _ _ _ _ _ _ Hseed2). cbn [fst].
  rewrite !storedOrNew_insert.
  repeat apply conj.
  - by rewrite lookup_insert_eq.
  - rewrite !syncMutate_CloudProfile. by destruct cloudProfile2, cloudProfile1.
  - rewrite !syncMutate_Seed. by destruct seed2, seed1.
  - by rewrite syncMutate_Shoot.
  - intros other Hother. by rewrite !lookup_insert_ne.
Qed.

End ClusterSyncAgain.

(** Two synchronisations on a seed that holds the Cluster resource: the
    second one has no cloud profile and no seed to give. *)
Lemma SyncClusterResourceToSeed_twice_witness :
  let _ := fixture.schema in
  let s := fixture.newShoot "vsphere" (Some "seed-a") None None in
  let cloudProfile := fixture.profile "vsphere" (fixture.raw "{}") in
  let store : gmap string extensionsv1alpha1.Cluster :=
    {[ "shoot--dev--a" := fixture.storedCluster ]} in
  let first :=
    (@extensions.SyncClusterResourceToSeed _ _ extensions.memoryClient
       "shoot--dev--a" (Some s) (Some cloudProfile) None store).1 in
  let second :=
    (@extensions.SyncClusterResourceToSeed _ _ extensions.memoryClient
       "shoot--dev--a" (Some s) None None first).1 in
  let new := extensions.storedOrNew "shoot--dev--a" second in
  new.(Spec).(extensionsv1alpha1.CloudProfile)
  = runtime.Build_RawExtension None (Some (extensions.withTypeMeta "CloudProfile" cloudProfile)) ∧
  new.(Spec).(extensionsv1alpha1.Seed) = runtime.Build_RawExtension (Some "{seed}") None.
Proof.
  cbv zeta.
  destruct (@SyncClusterResourceToSeed_twice fixture.schema
              {[ "shoot--dev--a" := fixture.storedCluster ]} "shoot--dev--a"
              (fixture.newShoot "vsphere" (Some "seed-a") None None)
              (fixture.newShoot "vsphere" (Some "seed-a") None None)
              "seed-a" "seed-a"
              (Some (fixture.profile "vsphere" (fixture.raw "{}"))) None None None
              eq_refl eq_refl)
    as (_ & HcloudProfile & Hseed & _ & _).
  split; [exact HcloudProfile | exact Hseed].
Defined.

(** ** Package extensions: reading the Cluster resource *)

Section ClusterRead.
Context `{Sch : Schema} `{Gar : !extensions.GardenScheme}.

Lemma andThen_Ok {A B} (r : outcome A) (k : A → outcome B) (b : B) :
  extensions.andThen r k = Ok b → ∃ a, r = Ok a ∧ k a = Ok b.
Proof. destruct r as [a|e|msg]; [|done..]. intros H. by exists a. Qed.

Lemma CloudProfileFromCluster_Ok decoder resource o :
  extensions.CloudProfileFromCluster decoder resource = Ok o →
  (o = None ↔ resource.(Spec).(extensionsv1alpha1.CloudProfile).(runtime.Raw) = None).
Proof.
  unfold extensions.CloudProfileFromCluster.
  destruct (resource.(Spec).(extensionsv1alpha1.CloudProfile).(runtime.Raw)) as [raw|].
  - destruct (extensions.Decode_CloudProfile decoder (Some raw)) as [e|i]; [done|].
    destruct (extensions.Convert_CloudProfile i) as [e|v]; [done|]. by intros [= <-].
  - by intros [= <-].
Qed.

Lemma SeedFromCluster_Ok decoder resource o :
  extensions.SeedFromCluster decoder resource = Ok o →
  (o = None ↔ resource.(Spec).(extensionsv1alpha1.Seed).(runtime.Raw) = None).
Proof.
  unfold extensions.SeedFromCluster.
  destruct (resource.(Spec).(extensionsv1alpha1.Seed).(runtime.Raw)) as [raw|].
  - destruct (extensions.Decode_Seed decoder (Some raw)) as [e|i]; [done|].
    destruct (extensions.Convert_Seed i) as [e|v]; [done|]. by intros [= <-].
  - by intros [= <-].
Qed.

Lemma ShootFromCluster_Ok decoder resource o :
  extensions.ShootFromCluster decoder resource = Ok o →
  (o = None ↔ resource.(Spec).(extensionsv1alpha1.Shoot).(runtime.Raw) = None).
Proof.
  unfold extensions.ShootFromCluster.
  destruct (resource.(Spec).(extensionsv1alpha1.Shoot).(runtime.Raw)) as [raw|].
  - destruct (extensions.Decode_Shoot decoder (Some raw)) as [e|i]; [done|].
    destruct (extensions.Convert_Shoot i) as [e|v]; [done|]. by intros [= <-].
  - by intros [= <-].
Qed.

(** What a successful [GetCluster] has done. *)
Lemma GetCluster_Ok (c : extensions.ClusterGetter) (namespace : string) (cluster : Cluster) :
  extensions.GetCluster c namespace = Ok cluster →
  ∃ resource,
    c namespace = inr resource ∧
    cluster.(Cluster_ObjectMeta) = resource.(ObjectMeta) ∧
    extensions.CloudProfileFromCluster extensions.NewGardenDecoder resource
    = Ok cluster.(CloudProfile) ∧
    extensions.SeedFromCluster extensions.NewGardenDecoder resource = Ok cluster.(Seed) ∧
    extensions.ShootFromCluster extensions.NewGardenDecoder resource = Ok cluster.(Shoot).
Proof.
  unfold extensions.GetCluster.
  destruct (c namespace) as [e|resource]; [done|]. cbv zeta.
  intros (cloudProfile & HcloudProfile & H)%andThen_Ok.
  apply andThen_Ok in H as (seed & Hseed & H).
  apply andThen_Ok in H as (shoot & Hshoot & [= <-]).
  by exists resource.
Qed.

(** X12: When [GetCluster] succeeds, [GetShoot] on the same client and namespace
    succeeds with the shoot of that cluster. *)
Theorem GetShoot_agrees_with_GetCluster
    (c : extensions.ClusterGetter) (namespace : string) (cluster : Cluster) :
  extensions.GetCluster c namespace = Ok cluster →
  extensions.GetShoot c namespace = Ok cluster.(Shoot).
Proof.
  intros (resource & Hget & _ & _ & _ & Hshoot)%GetCluster_Ok.
  unfold extensions.GetShoot. by rewrite Hget.
Qed.

(** X13: A cluster that [GetCluster] returns carries the metadata of the Cluster
    resource, and each of its cloud profile, seed and shoot is nil exactly
    when the resource has no raw bytes for it: the three are optional
    independently of each other. *)
Theorem GetCluster_field_is_nil_iff_no_bytes
    (c : extensions.ClusterGetter) (namespace : string) (cluster : Cluster) :
  extensions.GetCluster c namespace = Ok cluster →
  ∃ resource,
    c namespace = inr resource ∧
    cluster.(Cluster_ObjectMeta) = resource.(ObjectMeta) ∧
    (cluster.(CloudProfile) = None ↔
     resource.(Spec).(extensionsv1alpha1.CloudProfile).(runtime.Raw) = None) ∧
    (cluster.(Seed) = None ↔
     resource.(Spec).(extensionsv1alpha1.Seed).(runtime.Raw) = None) ∧
    (cluster.(Shoot) = None ↔
     resource.(Spec).(extensionsv1alpha1.Shoot).(runtime.Raw) = None).
Proof.
  intros (resource & Hget & Hmeta & HcloudProfile & Hseed & Hshoot)%GetCluster_Ok.
  exists resource. split; [done|]. split; [done|].
  split; [by eapply CloudProfileFromCluster_Ok|].
  split; [by eapply SeedFromCluster_Ok|].
  by eapply ShootFromCluster_Ok.
Qed.

End ClusterRead.

(** A Cluster resource with a cloud profile and a seed but no shoot. *)
Lemma GetShoot_agrees_with_GetCluster_witness :
  @extensions.GetShoot fixture.schema fixture.gardenScheme fixture.getter "shoot--dev--a"
  = Ok None.
Proof.
  exact (@GetShoot_agrees_with_GetCluster fixture.schema fixture.gardenScheme
           fixture.getter "shoot--dev--a"
           {| Cluster_ObjectMeta := fixture.meta "shoot--dev--a";
              CloudProfile := Some (fixture.profile "vsphere" None);
              Seed := Some fixture.seed;
              Shoot := None |}
           eq_refl).
Defined.

Lemma GetCluster_field_is_nil_iff_no_bytes_witness :
  let cluster :=
    {| Cluster_ObjectMeta := @fixture.meta "shoot--dev--a";
       CloudProfile := Some (fixture.profile "vsphere" None);
       Seed := Some fixture.seed;
       Shoot := None |} in
  ∃ resource,
    fixture.getter "shoot--dev--a" = inr resource ∧
    cluster.(Cluster_ObjectMeta) = resource.(ObjectMeta) ∧
    (cluster.(CloudProfile) = None ↔
     resource.(Spec).(extensionsv1alpha1.CloudProfile).(runtime.Raw) = None) ∧
    (cluster.(Seed) = None ↔
     resource.(Spec).(extensionsv1alpha1.Seed).(runtime.Raw) = None) ∧
    (cluster.(Shoot) = None ↔
     resource.(Spec).(extensionsv1alpha1.Shoot).(runtime.Raw) = None).
Proof.
  exact (@GetCluster_field_is_nil_iff_no_bytes fixture.schema fixture.gardenScheme
           fixture.getter "shoot--dev--a"
           {| Cluster_ObjectMeta := fixture.meta "shoot--dev--a";
              CloudProfile := Some (fixture.profile "vsphere" None);
              Seed := Some fixture.seed;
              Shoot := None |}
           eq_refl).
Defined.

(** ** Package helper: where its errors come from, and what it returns *)

Section HelperResults.
Context `{Sch : Schema} `{Dec : !Decoder} `{Utl : !Util} `{Val : !vspherevalidation}.

(** X14: The getters of the helper fail only when the decoder refuses the bytes,
    and they keep the decoder's error: [GetInfrastructureConfig] returns it
    as it is, [GetControlPlaneConfig] and [GetInfrastructureStatus] wrap it
    with a message that names the shoot.  None of them calls anything but
    that one decode. *)
Theorem helper_getters_keep_the_decoder_error
    (cluster : Cluster) (name : string) (extension : option (runtime.RawExtension unit))
    (t : list Event) (e : error) :
  (GetInfrastructureConfig cluster = (t, Err e) →
   ∃ raw, t = [Decode vsphere.InfrastructureConfig (Some raw)] ∧
          decoder_Decode vsphere.InfrastructureConfig (Some raw) = inl e) ∧
  (GetControlPlaneConfig cluster = (t, Err e) →
   ∃ s raw cause,
     cluster.(Shoot) = Some s ∧
     t = [Decode vsphere.ControlPlaneConfig raw] ∧
     decoder_Decode vsphere.ControlPlaneConfig raw = inl cause ∧
     e = errors_Wrap cause
           ("could not decode providerConfig of controlplane '"
            +:+ s.(ObjectMeta).(Name) +:+ "'")) ∧
  (GetInfrastructureStatus name extension = (t, Err e) →
   ∃ raw cause,
     t = [Decode vsphere.InfrastructureStatus (Some raw)] ∧
     decoder_Decode vsphere.InfrastructureStatus (Some raw) = inl cause ∧
     e = errors_Wrap cause
           ("could not decode infrastructureProviderStatus of controlplane '"
            +:+ name +:+ "'")).
Proof.
  repeat apply conj.
  - unfold GetInfrastructureConfig.
    destruct (cluster.(Shoot)) as [s|]; [rewrite deref_Some | done].
    destruct (s.(Spec).(Provider).(InfrastructureConfig)) as [[[raw|]]|]; [|done..].
    destruct (decode_cases vsphere.InfrastructureConfig (Some raw))
      as [(o & Hd & ->) | (e' & Hd & ->)]; [done|].
    intros [= <- <-]. by exists raw.
  - unfold GetControlPlaneConfig.
    destruct (cluster.(Shoot)) as [s|]; [rewrite deref_Some | done].
    destruct (s.(Spec).(Provider).(ControlPlaneConfig)) as [cp|]; [|done].
    destruct (decode_cases vsphere.ControlPlaneConfig cp.(Raw))
      as [(o & Hd & ->) | (e' & Hd & ->)]; [done|].
    intros [= <- <-]. by exists s, cp.(Raw), e'.
  - unfold GetInfrastructureStatus.
    destruct extension as [[[raw|] o]|]; [|done..].
    destruct (decode_cases vsphere.InfrastructureStatus (Some raw))
      as [(o' & Hd & ->) | (e' & Hd & ->)]; [done|].
    intros [= <- <-]. by exists raw, e'.
Qed.

(** X15: A config that [GetCloudProfileConfig] returns is what [util.Decode] made of
    the provider config bytes of the cluster's cloud profile, and
    [ValidateCloudProfileConfig] found nothing wrong with it. *)
Theorem GetCloudProfileConfig_returns_validated_config
    (cluster : option Cluster) (t : list Event)
    (cloudProfileConfig : obj vsphere.CloudProfileConfig) :
  GetCloudProfileConfig cluster = (t, Ok (Some cloudProfileConfig)) →
  ∃ raw,
    providerConfigBytes cluster = Some raw ∧
    util_Decode_result vsphere.CloudProfileConfig (Some raw) = inr cloudProfileConfig ∧
    ValidateCloudProfileConfig cloudProfileConfig = [] ∧
    t = [Decode vsphere.CloudProfileConfig (Some raw); Validate CheckCloudProfileConfig].
Proof.
  destruct (providerConfigBytes cluster) as [raw|] eqn:Hbytes.
  2: { by rewrite (GetCloudProfileConfig_absent _ Hbytes). }
  unfold providerConfigBytes in Hbytes.
  destruct cluster as [c|]; [|done]. cbn in Hbytes.
  destruct (c.(CloudProfile)) as [cloudProfile|] eqn:Hc; [|done]. cbn in Hbytes.
  destruct (cloudProfile.(Spec).(ProviderConfig)) as [providerConfig|] eqn:Hp; [|done].
  cbn in Hbytes.
  rewrite (GetCloudProfileConfig_present _ _ _ _ Hc Hp Hbytes).
  destruct (util_Decode_result vsphere.CloudProfileConfig (Some raw)) as [e|cfg] eqn:Hd;
    [done|].
  destruct (ValidateCloudProfileConfig cfg) as [|err errs] eqn:Hv; [|done].
  intros [= <- <-]. by exists raw.
Qed.

End HelperResults.

(** The control plane config of this cluster's shoot does not decode. *)
Lemma helper_getters_keep_the_decoder_error_witness :
  ∃ s raw cause,
    (fixture.clusterOf None
       (Some (fixture.newShoot "vsphere" None None (fixture.raw "garbage")))).(Shoot)
    = Some s ∧
    [Decode vsphere.ControlPlaneConfig (Some "garbage")]
    = [Decode vsphere.ControlPlaneConfig raw] ∧
    @decoder_Decode _ fixture.decoder vsphere.ControlPlaneConfig raw = inl cause ∧
    errors_Wrap (external "decoder" "couldn't get version/kind; json parse error")
      "could not decode providerConfig of controlplane 'shoot--dev--a'"
    = errors_Wrap cause
        ("could not decode providerConfig of controlplane '"
         +:+ s.(ObjectMeta).(Name) +:+ "'").
Proof.
  exact (proj1 (proj2 (@helper_getters_keep_the_decoder_error fixture.schema fixture.decoder
                         (fixture.clusterOf None
                            (Some (fixture.newShoot "vsphere" None None
                                     (fixture.raw "garbage"))))
                         "shoot--dev--a" None
                         [Decode vsphere.ControlPlaneConfig (Some "garbage")]
                         (errors_Wrap
                            (external "decoder"
                               "couldn't get version/kind; json parse error")
                            "could not decode providerConfig of controlplane 'shoot--dev--a'")))
           eq_refl).
Defined.

(** A cluster whose cloud profile config decodes and passes the validation. *)
Lemma GetCloudProfileConfig_returns_validated_config_witness :
  let cluster :=
    Some (@fixture.clusterOf (Some (fixture.profile "vsphere" (fixture.raw "{regions}")))
            None) in
  ∃ raw,
    @providerConfigBytes fixture.schema cluster = Some raw ∧
    @util_Decode_result _ fixture.util vsphere.CloudProfileConfig (Some raw)
    = inr "{regions}" ∧
    @ValidateCloudProfileConfig _ fixture.validators "{regions}" = [] ∧
    [Decode vsphere.CloudProfileConfig (Some "{regions}"); Validate CheckCloudProfileConfig]
    = [Decode vsphere.CloudProfileConfig (Some raw); Validate CheckCloudProfileConfig].
Proof.
  exact (@GetCloudProfileConfig_returns_validated_config fixture.schema fixture.util
           fixture.validators
           (Some (fixture.clusterOf
                    (Some (fixture.profile "vsphere" (fixture.raw "{regions}"))) None))
           _ "{regions}" eq_refl).
Defined.
